(** * ItCompilesOnMyMachine: the Python playground of [script.js] and [py-worker.js]

    A shallow embedding of the playground's session code (the page script
    that owns the worker, the watchdog timer and the status pill) and of the
    worker (the output capper [capJoin], the Python helper
    [__run_user_code] and the worker's message handler), followed by the
    properties of the specification that were checked against it.

    Left out: the tracking-parameter stripper, scrolling and navigation,
    the example snippets and the example, clear and copy buttons, and the
    Tab key of the editor; none of them touches the worker, the time-out
    or the status. *)

From Stdlib Require Import List ZArith Lia Bool String Ascii.
From Stdlib Require Import DecimalString.
Import ListNotations.
Local Open Scope Z_scope.

(** ** JavaScript strings

    A JavaScript string is a sequence of UTF-16 code units; [length] and
    [slice] count code units.  The code units are kept as numbers, so that
    the non-ASCII characters of the page's messages count for what they are
    in JavaScript. *)

Definition jsstring := list N.

Definition js (s : string) : jsstring :=
  map N_of_ascii (list_ascii_of_string s).

Definition len (s : jsstring) : Z := Z.of_nat (List.length s).

(** [s.slice(start, end)]: negative indices count from the end, and both
    indices are clamped to the string. *)
Definition slice (s : jsstring) (start stop : Z) : jsstring :=
  let clamp i := if i <? 0 then Z.max (len s + i) 0 else Z.min i (len s) in
  let from := clamp start in
  let to := clamp stop in
  firstn (Z.to_nat (to - from)) (skipn (Z.to_nat from) s).

Definition jsstring_eqb (a b : jsstring) : bool :=
  if list_eq_dec N.eq_dec a b then true else false.

(** The decimal digits of an integer. *)
Definition decimal (z : Z) : jsstring :=
  js (NilZero.string_of_int (Z.to_int z)).

(** A JavaScript Number is a double: an integer of 2^53 or more is the
    nearest one that 53 bits can hold, ties going to the even one. *)
Definition round_to_double (x : Z) : Z :=
  if x <? 2 ^ 53 then x
  else
    let sh := Z.log2 x - 52 in
    let q := Z.shiftr x sh in
    let r := x - Z.shiftl q sh in
    let half := Z.shiftl 1 (sh - 1) in
    let q' := if (half <? r) || ((r =? half) && Z.odd q) then q + 1 else q in
    Z.shiftl q' sh.

Definition digits_of (x : Z) : Z := Z.of_nat (List.length (decimal x)).

(** The [k] digits [s] for which [s * 10^(n-k)] is the double [v], the
    closest to [v] when two fit and the even one when they are as close. *)
Definition candidate (v n k : Z) : option Z :=
  let t := 10 ^ (n - k) in
  let s0 := v / t in
  let fits s := (s <? 10 ^ k) && (round_to_double (s * t) =? v) in
  match fits s0, fits (s0 + 1) with
  | true, true =>
      let d0 := v - s0 * t in
      let d1 := (s0 + 1) * t - v in
      if d0 <? d1 then Some s0
      else if d1 <? d0 then Some (s0 + 1)
      else if Z.even s0 then Some s0 else Some (s0 + 1)
  | true, false => Some s0
  | false, true => Some (s0 + 1)
  | false, false => None
  end.

(** The fewest digits that give [v] back, tried in the order [ks]. *)
Fixpoint shortest (v n : Z) (ks : list Z) : Z * Z :=
  match ks with
  | [] => (v, n)
  | k :: rest =>
      if n <? k then (v, n)
      else match candidate v n k with
           | Some s => (s, k)
           | None => shortest v n rest
           end
  end.

(** [String(v)] for a double [v] that is a whole number and not negative:
    below 2^53 all its digits; from there on the fewest digits that give
    [v] back, followed by zeros up to 21 digits and by an exponent
    beyond. *)
Definition String_of_magnitude (v : Z) : jsstring :=
  if v <? 2 ^ 53 then decimal v
  else if 2 ^ 1024 <=? v then js "Infinity"
  else
    let nd := digits_of v in
    let '(s, k, n) :=
      if round_to_double (10 ^ nd) =? v then (1, 1, nd + 1)
      else
        let (s, k) := shortest v nd (map Z.of_nat (seq 1 17)) in (s, k, nd) in
    let ds := decimal s in
    if n <=? 21 then ds ++ repeat 48%N (Z.to_nat (n - k))
    else
      firstn 1 ds
      ++ (if 1 <? k then js "." ++ skipn 1 ds else [])
      ++ js "e+" ++ decimal (n - 1).

(** [String(n)] for the Number that the integer [z] denotes. *)
Definition String_of_Z (z : Z) : jsstring :=
  if z <? 0 then js "-" ++ String_of_magnitude (round_to_double (- z))
  else String_of_magnitude (round_to_double z).

(** [code.trim()] removes the white space and line terminators of
    ECMAScript from both ends. *)
Definition is_white_space (c : N) : bool :=
  existsb (N.eqb c)
    [9; 10; 11; 12; 13; 32; 160; 5760; 8192; 8193; 8194; 8195; 8196; 8197;
     8198; 8199; 8200; 8201; 8202; 8232; 8233; 8239; 8287; 12288; 65279]%N.

Fixpoint trimStart (s : jsstring) : jsstring :=
  match s with
  | c :: rest => if is_white_space c then trimStart rest else s
  | [] => []
  end.

Definition trim (s : jsstring) : jsstring :=
  rev (trimStart (rev (trimStart s))).

(** A string is truthy when it is not empty. *)
Definition truthy (s : jsstring) : bool :=
  match s with [] => false | _ => true end.

(** ** JavaScript values, for the objects that cross [postMessage] *)

Inductive JsVal : Type :=
  | JUndefined
  | JBool (b : bool)
  | JNumber (z : Z)
  | JString (s : jsstring).

(** An object literal, as its properties in the order written. *)
Definition JsObject := list (string * JsVal).

(** [o.key] on an object literal; an absent property reads as
    [undefined]. *)
Fixpoint lookup (key : string) (o : JsObject) : JsVal :=
  match o with
  | [] => JUndefined
  | (k, v) :: rest => if String.eqb k key then v else lookup key rest
  end.

(** [v.key] on a primitive value: a string has [length], and every other
    property reads as [undefined]. *)
Definition get_prop (v : JsVal) (key : string) : JsVal :=
  match v with
  | JString s => if String.eqb key "length" then JNumber (len s) else JUndefined
  | _ => JUndefined
  end.

(** ** The message protocol

    The page posts [{type: "init"}] and [{type: "run", code, capBytes}];
    the worker posts [{type: "ready"}], [{type: "fatal", error}] and
    [{type: "result", ok, output}].  The handlers are written over these
    shapes, and [wire_to_worker] and [wire_from_worker] are the object
    literals of the two [postMessage] sides as the source writes them. *)

Inductive ToWorker : Type :=
  | Init
  | Run (code : jsstring) (capBytes : option Z).

Inductive FromWorker : Type :=
  | Ready
  | Fatal (error : jsstring)
  | Result (ok : bool) (output : jsstring).

Definition wire_to_worker (m : ToWorker) : JsObject :=
  match m with
  | Init => [("type"%string, JString (js "init"))]
  | Run code capBytes =>
      [("type"%string, JString (js "run"));
               ("code"%string, JString code);
               ("capBytes"%string,
                match capBytes with Some z => JNumber z | None => JUndefined end)]
  end.

Definition wire_from_worker (m : FromWorker) : JsObject :=
  match m with
  | Ready => [("type"%string, JString (js "ready"))]
  | Fatal error =>
      [("type"%string, JString (js "fatal"));
               ("error"%string, JString error)]
  | Result ok output =>
      [("type"%string, JString (js "result"));
               ("ok"%string, JBool ok);
               ("output"%string, JString output)]
  end.

(** ** py-worker.js *)

Module Worker.

(** The marker is a line feed, U+2026, the bracketed text and a line feed. *)
Definition truncation_marker : jsstring :=
  [10%N; 8230%N] ++ js "[output truncated]" ++ [10%N].

(** The [for ... of] loop of [capJoin], with [out] as its accumulator. *)
Fixpoint capJoin_loop (out : jsstring) (chunks : list jsstring) (capBytes : Z)
  : jsstring :=
  match chunks with
  | [] => out
  | chunk :: rest =>
      if len out + len chunk >? capBytes then
        let remaining := Z.max 0 (capBytes - len out) in
        (out ++ slice chunk 0 remaining) ++ truncation_marker
      else capJoin_loop (out ++ chunk) rest capBytes
  end.

Definition capJoin (chunks : list jsstring) (capBytes : Z) : jsstring :=
  capJoin_loop [] chunks capBytes.

(** What [capJoin] hands back to its caller is a JavaScript string. *)
Definition capJoin_value (chunks : list jsstring) (capBytes : Z) : JsVal :=
  JString (capJoin chunks capBytes).

(** *** The Python helper

    The interpreter is Pyodide, which is not part of the repository.  One
    call of [exec(code, glb, glb)] is described by what it wrote into the
    two redirected streams and by how it ended; an exception that
    [except Exception] catches comes with the text of
    [traceback.format_exc()], any other one (a [BaseException] outside
    [Exception], such as [SystemExit]) leaves the helper and reaches
    JavaScript with its description. *)

Inductive Ending : Type :=
  | Returned
  | RaisedException (tb : jsstring)
  | RaisedOther (descr : jsstring)
  | NeverReturns.

Record Exec : Type := {
  written_out : jsstring;
  written_err : jsstring;
  ending : Ending
}.

Record PyResult : Type := {
  ok : bool;
  stdout : jsstring;
  stderr : jsstring
}.

Inductive HelperOutcome : Type :=
  | Ret (res : PyResult)
  | Throws (e : jsstring)
  | Hangs.

(** *** The helper's dictionary in JavaScript

    [.toJs()] is called with no [dict_converter], and the Pyodide that
    the worker loads (0.25.1) then turns a Python [dict] into a [Map].
    The entries of a [Map] are reached with [get]; they are not
    properties of it. *)

Record JsMap : Type := { entries : list (jsstring * JsVal) }.

Definition toJs (d : PyResult) : JsMap :=
  {| entries := [(js "ok", JBool (ok d));
                 (js "stdout", JString (stdout d));
                 (js "stderr", JString (stderr d))] |}.



(** [m.name] for a name that is none of the properties a [Map] has
    ([size] and its methods): [undefined], whatever the entries. *)
Definition Map_property (m : JsMap) (name : string) : JsVal :=
  if String.eqb name "size"
  then JNumber (Z.of_nat (List.length (entries m)))
  else JUndefined.

(** Truthiness, as [!!v] and [if (v)] take it. *)
Definition js_truthy (v : JsVal) : bool :=
  match v with
  | JUndefined => false
  | JBool b => b
  | JNumber z => negb (z =? 0)
  | JString s => truthy s
  end.

(** The text of a value that was read as a chunk; [undefined] is falsy
    and is never pushed, as the empty string. *)
Definition text_of (v : JsVal) : jsstring :=
  match v with
  | JString s => s
  | _ => []
  end.

(** What the worker reads of [res]: [!!res.ok], [res.stdout] and
    [res.stderr]. *)
Definition read (res : JsMap) : PyResult :=
  {| ok := js_truthy (Map_property res "ok");
     stdout := text_of (Map_property res "stdout");
     stderr := text_of (Map_property res "stderr") |}.

(** [glb = {"__name__": "__main__"}] *)
Definition fresh_globals : list (jsstring * jsstring) :=
  [(js "__name__", js "__main__")].

Inductive Reaction (Interp : Type) : Type :=
  | Posts (m : FromWorker) (pyodide' : option Interp)
  | Busy.
Arguments Posts {Interp} m pyodide'.
Arguments Busy {Interp}.

Section Engine.

(** The state of a loaded interpreter that outlives one call of the
    helper: everything but the [glb] dictionary of that call. *)
Variable Interp : Type.

(** [exec(code, glb, glb)] in a given interpreter. *)
Variable py_exec :
  Interp -> list (jsstring * jsstring) -> jsstring -> Exec * Interp.

(** What loading the runtime and defining the helper gives in this
    worker: the description of the failure, or the interpreter. *)
Variable loadPyodide : jsstring + Interp.

Definition __run_user_code (py : Interp) (code : jsstring)
  : HelperOutcome * Interp :=
  let glb := fresh_globals in
  let (e, py') := py_exec py glb code in
  match ending e with
  | Returned =>
      (Ret {| ok := true; stdout := written_out e;
              stderr := written_err e |}, py')
  | RaisedException tb =>
      (Ret {| ok := false; stdout := written_out e;
              stderr := written_err e ++ tb |}, py')
  | RaisedOther descr => (Throws descr, py')
  | NeverReturns => (Hangs, py')
  end.

(** [initPyodide]: nothing to do once [pyodide] is set. *)
Definition initPyodide (pyodide : option Interp) : jsstring + Interp :=
  match pyodide with
  | Some py => inr py
  | None => loadPyodide
  end.

(** The chunks handed to [capJoin]: stdout, then stderr, each only when
    it is not empty. *)
Definition chunks_of (res : PyResult) : list jsstring :=
  (if truthy (stdout res) then [stdout res] else []) ++
  (if truthy (stderr res) then [stderr res] else []).

(** [self.onmessage], from the worker's [pyodide] variable and a message
    to what it posts and the new value of the variable. *)
Definition onmessage (pyodide : option Interp) (msg : ToWorker)
  : Reaction Interp :=
  match msg with
  | Init =>
      match initPyodide pyodide with
      | inr py => Posts Ready (Some py)
      | inl e => Posts (Fatal e) pyodide
      end
  | Run code capBytes =>
      match initPyodide pyodide with
      | inl e => Posts (Result false (js "Worker error: " ++ e)) pyodide
      | inr py =>
          match __run_user_code py code with
          | (Ret d, py') =>
              let res := read (toJs d) in
              let chunks := chunks_of res in
              let output :=
                capJoin chunks
                  (match capBytes with Some n => n | None => 16000 end) in
              Posts (Result (ok res)
                       (if truthy output then output else js "(no output)"))
                    (Some py')
          | (Throws e, py') =>
              Posts (Result false (js "Worker error: " ++ e)) (Some py')
          | (Hangs, _) => Busy
          end
      end
  end.

End Engine.

End Worker.

(** ** script.js: the playground *)

Module Page.

(** The three classes that [setStatus] gives the status pill. *)
Inductive StatusClass : Type :=
  | status_ready
  | status_error
  | status_loading.

(** What the page has told the user about a run: the output of a result
    message (with the worker whose handler showed it), the time-out
    notice, the stop notice, or a crash of the worker.  The list of these
    is kept next to the page's state for the statements below; the page
    itself only overwrites the output. *)
Inductive Outcome : Type :=
  | GotResult (w : nat) (output : jsstring)
  | TimedOut
  | Stopped
  | Crashed.

(** The variables of the script ([worker], [running], [runTimeout]), the
    elements it writes ([output], [pyStatus], the two buttons), and what
    the browser holds for it: the Worker objects constructed and not yet
    terminated, the messages posted to them in order, and the time-outs
    set and neither fired nor cleared, each with the [timeoutMs] its
    callback closed over.  A Worker object is named by its rank of
    construction, a time-out by its id (ids are positive). *)
Record Page : Type := {
  worker : option nat;
  running : bool;
  runTimeout : option nat;
  output : jsstring;
  pyStatus_class : StatusClass;
  pyStatus_text : jsstring;
  runBtn_disabled : bool;
  stopBtn_disabled : bool;
  created : nat;
  live : list nat;
  posted : list (nat * ToWorker);
  next_timer : nat;
  pending : list (nat * Z);
  outcomes : list Outcome
}.

Definition set_worker (v : option nat) (s : Page) : Page :=
  {| worker := v; running := running s; runTimeout := runTimeout s;
     output := output s; pyStatus_class := pyStatus_class s;
     pyStatus_text := pyStatus_text s;
     runBtn_disabled := runBtn_disabled s;
     stopBtn_disabled := stopBtn_disabled s; created := created s;
     live := live s; posted := posted s; next_timer := next_timer s;
     pending := pending s; outcomes := outcomes s |}.

Definition set_running (v : bool) (s : Page) : Page :=
  {| worker := worker s; running := v; runTimeout := runTimeout s;
     output := output s; pyStatus_class := pyStatus_class s;
     pyStatus_text := pyStatus_text s;
     runBtn_disabled := runBtn_disabled s;
     stopBtn_disabled := stopBtn_disabled s; created := created s;
     live := live s; posted := posted s; next_timer := next_timer s;
     pending := pending s; outcomes := outcomes s |}.

Definition set_runTimeout (v : option nat) (s : Page) : Page :=
  {| worker := worker s; running := running s; runTimeout := v;
     output := output s; pyStatus_class := pyStatus_class s;
     pyStatus_text := pyStatus_text s;
     runBtn_disabled := runBtn_disabled s;
     stopBtn_disabled := stopBtn_disabled s; created := created s;
     live := live s; posted := posted s; next_timer := next_timer s;
     pending := pending s; outcomes := outcomes s |}.

Definition set_output (v : jsstring) (s : Page) : Page :=
  {| worker := worker s; running := running s; runTimeout := runTimeout s;
     output := v; pyStatus_class := pyStatus_class s;
     pyStatus_text := pyStatus_text s;
     runBtn_disabled := runBtn_disabled s;
     stopBtn_disabled := stopBtn_disabled s; created := created s;
     live := live s; posted := posted s; next_timer := next_timer s;
     pending := pending s; outcomes := outcomes s |}.

Definition set_pyStatus_class (v : StatusClass) (s : Page) : Page :=
  {| worker := worker s; running := running s; runTimeout := runTimeout s;
     output := output s; pyStatus_class := v;
     pyStatus_text := pyStatus_text s;
     runBtn_disabled := runBtn_disabled s;
     stopBtn_disabled := stopBtn_disabled s; created := created s;
     live := live s; posted := posted s; next_timer := next_timer s;
     pending := pending s; outcomes := outcomes s |}.

Definition set_pyStatus_text (v : jsstring) (s : Page) : Page :=
  {| worker := worker s; running := running s; runTimeout := runTimeout s;
     output := output s; pyStatus_class := pyStatus_class s;
     pyStatus_text := v; runBtn_disabled := runBtn_disabled s;
     stopBtn_disabled := stopBtn_disabled s; created := created s;
     live := live s; posted := posted s; next_timer := next_timer s;
     pending := pending s; outcomes := outcomes s |}.

Definition set_runBtn_disabled (v : bool) (s : Page) : Page :=
  {| worker := worker s; running := running s; runTimeout := runTimeout s;
     output := output s; pyStatus_class := pyStatus_class s;
     pyStatus_text := pyStatus_text s; runBtn_disabled := v;
     stopBtn_disabled := stopBtn_disabled s; created := created s;
     live := live s; posted := posted s; next_timer := next_timer s;
     pending := pending s; outcomes := outcomes s |}.

Definition set_stopBtn_disabled (v : bool) (s : Page) : Page :=
  {| worker := worker s; running := running s; runTimeout := runTimeout s;
     output := output s; pyStatus_class := pyStatus_class s;
     pyStatus_text := pyStatus_text s;
     runBtn_disabled := runBtn_disabled s; stopBtn_disabled := v;
     created := created s; live := live s; posted := posted s;
     next_timer := next_timer s; pending := pending s;
     outcomes := outcomes s |}.

Definition set_created (v : nat) (s : Page) : Page :=
  {| worker := worker s; running := running s; runTimeout := runTimeout s;
     output := output s; pyStatus_class := pyStatus_class s;
     pyStatus_text := pyStatus_text s;
     runBtn_disabled := runBtn_disabled s;
     stopBtn_disabled := stopBtn_disabled s; created := v; live := live s;
     posted := posted s; next_timer := next_timer s; pending := pending s;
     outcomes := outcomes s |}.

Definition set_live (v : list nat) (s : Page) : Page :=
  {| worker := worker s; running := running s; runTimeout := runTimeout s;
     output := output s; pyStatus_class := pyStatus_class s;
     pyStatus_text := pyStatus_text s;
     runBtn_disabled := runBtn_disabled s;
     stopBtn_disabled := stopBtn_disabled s; created := created s;
     live := v; posted := posted s; next_timer := next_timer s;
     pending := pending s; outcomes := outcomes s |}.

Definition set_posted (v : list (nat * ToWorker)) (s : Page) : Page :=
  {| worker := worker s; running := running s; runTimeout := runTimeout s;
     output := output s; pyStatus_class := pyStatus_class s;
     pyStatus_text := pyStatus_text s;
     runBtn_disabled := runBtn_disabled s;
     stopBtn_disabled := stopBtn_disabled s; created := created s;
     live := live s; posted := v; next_timer := next_timer s;
     pending := pending s; outcomes := outcomes s |}.

Definition set_next_timer (v : nat) (s : Page) : Page :=
  {| worker := worker s; running := running s; runTimeout := runTimeout s;
     output := output s; pyStatus_class := pyStatus_class s;
     pyStatus_text := pyStatus_text s;
     runBtn_disabled := runBtn_disabled s;
     stopBtn_disabled := stopBtn_disabled s; created := created s;
     live := live s; posted := posted s; next_timer := v;
     pending := pending s; outcomes := outcomes s |}.

Definition set_pending (v : list (nat * Z)) (s : Page) : Page :=
  {| worker := worker s; running := running s; runTimeout := runTimeout s;
     output := output s; pyStatus_class := pyStatus_class s;
     pyStatus_text := pyStatus_text s;
     runBtn_disabled := runBtn_disabled s;
     stopBtn_disabled := stopBtn_disabled s; created := created s;
     live := live s; posted := posted s; next_timer := next_timer s;
     pending := v; outcomes := outcomes s |}.

Definition set_outcomes (v : list Outcome) (s : Page) : Page :=
  {| worker := worker s; running := running s; runTimeout := runTimeout s;
     output := output s; pyStatus_class := pyStatus_class s;
     pyStatus_text := pyStatus_text s;
     runBtn_disabled := runBtn_disabled s;
     stopBtn_disabled := stopBtn_disabled s; created := created s;
     live := live s; posted := posted s; next_timer := next_timer s;
     pending := pending s; outcomes := v |}.

(** What [runCode] reads from the page: the editor's text and the values
    of the two selects ([None] for an empty value, else the number the
    value denotes). *)
Record Inputs : Type := {
  codeEditor_value : jsstring;
  timeoutSelect_value : option Z;
  capSelect_value : option Z
}.

(** The page before its [load] event.  The markup that gives the pill and
    the buttons their first state is not in the repository; [boot]
    overwrites all of it. *)
Definition initial : Page :=
  {| worker := None; running := false; runTimeout := None;
     output := []; pyStatus_class := status_loading; pyStatus_text := [];
     runBtn_disabled := false; stopBtn_disabled := false;
     created := 0%nat; live := []; posted := [];
     next_timer := 1%nat; pending := []; outcomes := [] |}.

Definition setOutput (text : jsstring) (s : Page) : Page :=
  set_output text s.

Definition setStatus (kind : string) (text : jsstring) (s : Page) : Page :=
  set_pyStatus_text text
    (set_pyStatus_class
       (if String.eqb kind "ready" then status_ready
        else if String.eqb kind "error" then status_error
        else status_loading) s).

Definition postMessage (w : nat) (m : ToWorker) (s : Page) : Page :=
  set_posted (posted s ++ [(w, m)]) s.

Definition ensureWorker (s : Page) : nat * Page :=
  match worker s with
  | Some w => (w, s)
  | None =>
      let w := created s in
      let s := set_live (live s ++ [w]) (set_created (S w) s) in
      let s := set_worker (Some w) s in
      let s := setStatus "loading" (js "Loading Python" ++ [8230%N]) s in
      let s := set_runBtn_disabled true s in
      let s := set_stopBtn_disabled true s in
      let s := postMessage w Init s in
      (w, s)
  end.

Definition remove_nat (w : nat) (l : list nat) : list nat :=
  filter (fun x => negb (Nat.eqb x w)) l.

Definition killWorker (s : Page) : Page :=
  match worker s with
  | Some w => set_worker None (set_live (remove_nat w (live s)) s)
  | None => s
  end.

Definition startRun (s : Page) : Page :=
  set_runBtn_disabled true (set_stopBtn_disabled false (set_running true s)).

Definition clearTimeout (id : nat) (s : Page) : Page :=
  set_pending (filter (fun t => negb (Nat.eqb (fst t) id)) (pending s)) s.

Definition setTimeout (timeoutMs : Z) (s : Page) : nat * Page :=
  let id := next_timer s in
  (id, set_pending (pending s ++ [(id, timeoutMs)]) (set_next_timer (S id) s)).

Definition finishRun (s : Page) : Page :=
  let s := set_running false s in
  let s := set_stopBtn_disabled true s in
  let s := set_runBtn_disabled false s in
  match runTimeout s with
  | Some id => set_runTimeout None (clearTimeout id s)
  | None => s
  end.

Definition report (o : Outcome) (s : Page) : Page :=
  set_outcomes (outcomes s ++ [o]) s.

(** [worker.onmessage] of the Worker object [w]; the closure does not
    mention [w], which appears in the record of outcomes only. *)
Definition worker_onmessage (w : nat) (msg : FromWorker) (s : Page) : Page :=
  match msg with
  | Ready =>
      set_runBtn_disabled false (setStatus "ready" (js "Python ready") s)
  | Fatal error =>
      let s := setStatus "error" (js "Python failed to load") s in
      let s := setOutput (if truthy error then error else js "Unknown error") s in
      set_stopBtn_disabled true (set_runBtn_disabled true s)
  | Result _ output =>
      let s := finishRun s in
      report (GotResult w output) (setOutput output s)
  end.

(** [worker.onerror], with the [message] of the error event. *)
Definition worker_onerror (w : nat) (message : jsstring) (s : Page) : Page :=
  let s := finishRun s in
  let s := setStatus "error" (js "Worker crashed") s in
  report Crashed
    (setOutput (if truthy message then message else js "[object ErrorEvent]") s).

(** The callback that [runCode] hands to [setTimeout]. *)
Definition timeout_callback (timeoutMs : Z) (s : Page) : Page :=
  let s :=
    setOutput ([9201%N; 65039%N] ++ js " Timed out after " ++
               String_of_Z timeoutMs ++
               js "ms. (Try a longer timeout or optimize the code.)") s in
  let s := report TimedOut s in
  let s := setStatus "ready" (js "Python ready") s in
  let s := killWorker s in
  let s := snd (ensureWorker s) in
  finishRun s.

Definition runCode (i : Inputs) (s : Page) : Page :=
  let code := codeEditor_value i in
  if negb (truthy (trim code)) then
    setOutput ([9888%N; 65039%N] ++ js " Please write some code first.") s
  else
    let (w, s) := ensureWorker s in
    let timeoutMs :=
      match timeoutSelect_value i with Some n => n | None => 3000 end in
    let capBytes :=
      match capSelect_value i with Some n => n | None => 16000 end in
    let s := startRun s in
    let s := setOutput (js "Running" ++ [8230%N]) s in
    let (id, s) := setTimeout timeoutMs s in
    let s := set_runTimeout (Some id) s in
    postMessage w (Run code (Some capBytes)) s.

Definition stopCode (s : Page) : Page :=
  if negb (running s) then s
  else
    let s := setOutput ([9632%N] ++ js " Stopped.") s in
    let s := report Stopped s in
    let s := setStatus "ready" (js "Python ready") s in
    let s := killWorker s in
    let s := snd (ensureWorker s) in
    finishRun s.

Definition boot (s : Page) : Page :=
  let s := setOutput (js "Run your code to see output here" ++ [8230%N]) s in
  snd (ensureWorker s).

(** *** The page as a transition system

    One event is one turn of the page's event loop.  The browser does not
    dispatch the click of a disabled button, fires a time-out only while it
    is pending, and delivers the events of a Worker object only while that
    worker has not been terminated. *)
Inductive Event : Type :=
  | Load
  | ClickRun (i : Inputs)
  | CtrlEnter (i : Inputs)
  | ClickStop
  | TimerFires (id : nat)
  | WorkerMessage (w : nat) (msg : FromWorker)
  | WorkerError (w : nat) (message : jsstring).

(** A time-out that fires is no longer pending when its callback runs. *)
Definition expire (id : nat) (s : Page) : Page := clearTimeout id s.

Definition find_timer (id : nat) (l : list (nat * Z)) : option Z :=
  option_map snd (find (fun t => Nat.eqb (fst t) id) l).

Definition is_live (w : nat) (s : Page) : bool :=
  existsb (Nat.eqb w) (live s).

Definition handle (e : Event) (s : Page) : Page :=
  match e with
  | Load => boot s
  | ClickRun i => if runBtn_disabled s then s else runCode i s
  | CtrlEnter i => runCode i s
  | ClickStop => if stopBtn_disabled s then s else stopCode s
  | TimerFires id =>
      match find_timer id (pending s) with
      | Some timeoutMs => timeout_callback timeoutMs (expire id s)
      | None => s
      end
  | WorkerMessage w msg => if is_live w s then worker_onmessage w msg s else s
  | WorkerError w message =>
      if is_live w s then worker_onerror w message s else s
  end.

Definition run_events (evs : list Event) (s : Page) : Page :=
  fold_left (fun s e => handle e s) evs s.

(** The runs posted to the worker [w], and the results that the handler
    of [w] has shown. *)
Definition runs_to (w : nat) (s : Page) : nat :=
  List.length
    (filter (fun p => match snd p with
                      | Run _ _ => Nat.eqb (fst p) w
                      | Init => false
                      end) (posted s)).

Definition results_from (w : nat) (s : Page) : nat :=
  List.length
    (filter (fun o => match o with
                      | GotResult w' _ => Nat.eqb w' w
                      | _ => false
                      end) (outcomes s)).

(** The sequences of events in which runs come one at a time:
    no run is submitted while one is outstanding, a worker posts a result
    only for a run that it was sent and has not answered, and no worker
    crashes. *)
Definition allowed (e : Event) (s : Page) : Prop :=
  match e with
  | ClickRun _ | CtrlEnter _ => running s = false
  | WorkerMessage w (Result _ _) => (results_from w s < runs_to w s)%nat
  | WorkerError _ _ => False
  | _ => True
  end.

Fixpoint orderly (evs : list Event) (s : Page) : Prop :=
  match evs with
  | [] => True
  | e :: rest => allowed e s /\ orderly rest (handle e s)
  end.

(** The messages of type [run] among those posted. *)
Definition runs_posted (s : Page) : list (nat * ToWorker) :=
  filter (fun p => match snd p with Run _ _ => true | Init => false end)
         (posted s).

End Page.

(** ** The state machine that the specification declares

    [Loading -> Ready], [Loading -> Error], [Ready -> Running],
    [Running -> Ready] and [Running -> Loading]; [Error -> Loading] for a
    retry of the initialisation; a step that changes nothing is allowed
    as well. *)

Inductive SessionState : Type := SLoading | SReady | SRunning | SError.

Definition declared (a b : SessionState) : bool :=
  match a, b with
  | SLoading, SReady | SLoading, SError
  | SReady, SRunning | SRunning, SReady | SRunning, SLoading => true
  | SError, SLoading => true
  | SLoading, SLoading | SReady, SReady
  | SRunning, SRunning | SError, SError => true
  | _, _ => false
  end.

(** The pill alone, and the pill read together with the [running] flag. *)
Definition pill_state (s : Page.Page) : SessionState :=
  match Page.pyStatus_class s with
  | Page.status_ready => SReady
  | Page.status_error => SError
  | Page.status_loading => SLoading
  end.

Definition session_state (s : Page.Page) : SessionState :=
  if Page.running s then SRunning else pill_state s.

(** ** An engine for the examples

    Pyodide is outside the repository; the examples below need some engine
    to run.  This one runs six programs the way Python does and prints
    nothing for any other.  What it keeps from one call to the next is the
    attribute [n] that the second program stores on the module [sys]. *)

Module Demo.

Definition nl : jsstring := [10%N].
Definition quote : jsstring := [34%N].

Definition Interp : Type := Z.

Definition print_1 : jsstring := js "print(1)".

Definition print_hello : jsstring := js "print('hello')".

Definition count_runs : jsstring :=
  js "import sys" ++ nl ++
  js "sys.n = getattr(sys, 'n', 0) + 1" ++ nl ++
  js "print(sys.n)".

Definition divide_by_zero : jsstring := js "1/0".

Definition system_exit : jsstring := js "raise SystemExit".

Definition spin : jsstring := js "while True: pass".

Definition traceback_divide_by_zero : jsstring :=
  js "Traceback (most recent call last):" ++ nl ++
  js "  File " ++ quote ++ js "<exec>" ++ quote ++
  js ", line 12, in __run_user_code" ++ nl ++
  js "  File " ++ quote ++ js "<string>" ++ quote ++
  js ", line 1, in <module>" ++ nl ++
  js "ZeroDivisionError: division by zero" ++ nl.

Definition silent (e : Worker.Ending) : Worker.Exec :=
  {| Worker.written_out := []; Worker.written_err := [];
     Worker.ending := e |}.

Definition py_exec (py : Interp) (glb : list (jsstring * jsstring))
    (code : jsstring) : Worker.Exec * Interp :=
  if jsstring_eqb code print_1 then
    ({| Worker.written_out := js "1" ++ nl; Worker.written_err := [];
        Worker.ending := Worker.Returned |}, py)
  else if jsstring_eqb code print_hello then
    ({| Worker.written_out := js "hello" ++ nl; Worker.written_err := [];
        Worker.ending := Worker.Returned |}, py)
  else if jsstring_eqb code count_runs then
    ({| Worker.written_out := decimal (py + 1) ++ nl;
        Worker.written_err := [];
        Worker.ending := Worker.Returned |}, py + 1)
  else if jsstring_eqb code divide_by_zero then
    (silent (Worker.RaisedException traceback_divide_by_zero), py)
  else if jsstring_eqb code system_exit then
    (silent (Worker.RaisedOther (js "PythonError: SystemExit")), py)
  else if jsstring_eqb code spin then
    (silent Worker.NeverReturns, py)
  else (silent Worker.Returned, py).

Definition loadPyodide : jsstring + Interp := inr 0.

(** [self.onmessage] of a worker that runs this engine. *)
Definition onmessage : option Interp -> ToWorker -> Worker.Reaction Interp :=
  Worker.onmessage Interp py_exec loadPyodide.

End Demo.

(** ** The property that keeps late results away *)

(** The workers constructed and not terminated are the current one, if
    any; and the current one has been constructed. *)
Definition one_worker (s : Page.Page) : Prop :=
  Page.live s = match Page.worker s with Some w => [w] | None => [] end
  /\ (forall w, Page.worker s = Some w -> (w < Page.created s)%nat).

(** ** The property behind one outcome per run

    Every run posted has had its outcome, but for the one that is
    outstanding when [running] is set; that one has its time-out pending,
    and it is the only run that the current worker has not answered. *)

Definition due (s : Page.Page) : nat := if Page.running s then 1%nat else 0%nat.

Definition settled (s : Page.Page) : Prop :=
  one_worker s
  /\ (List.length (Page.outcomes s) + due s
      = List.length (Page.runs_posted s))%nat
  /\ (if Page.running s
      then exists id timeoutMs,
             Page.runTimeout s = Some id /\ Page.pending s = [(id, timeoutMs)]
      else Page.runTimeout s = None /\ Page.pending s = [])
  /\ (forall w, Page.worker s = Some w ->
                Page.runs_to w s = (Page.results_from w s + due s)%nat)
  /\ (Page.worker s = None -> Page.running s = false)
  /\ (forall w, (Page.created s <= w)%nat ->
                Page.runs_to w s = 0%nat /\ Page.results_from w s = 0%nat).

(** ** Inputs and replies used in the examples *)

Module Example.

Definition print_1 : Page.Inputs :=
  {| Page.codeEditor_value := js "print(1)";
     Page.timeoutSelect_value := Some 3000;
     Page.capSelect_value := Some 16000 |}.

Definition spaces : Page.Inputs :=
  {| Page.codeEditor_value := js "   ";
     Page.timeoutSelect_value := Some 3000;
     Page.capSelect_value := Some 16000 |}.

Definition run_print_1 : ToWorker := Run (js "print(1)") (Some 16000).

(** The worker's reply to [print(1)]. *)
Definition result_1 : FromWorker := Result false (js "(no output)").

(** The page after its [load] event and the worker's [ready]. *)
Definition ready_page : Page.Page :=
  Page.run_events [Page.Load; Page.WorkerMessage 0 Ready] Page.initial.

End Example.

(** ** script.js: stripping the tracking parameters

    The search parameters of the page's URL are name and value pairs in
    order; [keys()] lists the names, repeated ones included, and
    [delete(k)] removes every pair named [k]. *)

Module Tracking.

Definition Params := list (jsstring * jsstring).

Definition startsWith (s prefix : jsstring) : bool :=
  jsstring_eqb (firstn (List.length prefix) s) prefix.

Definition kill : list jsstring := [js "fbclid"; js "gclid"].

Definition kill_has (k : jsstring) : bool := existsb (jsstring_eqb k) kill.

(** The test of the loop: [kill.has(k) || k.startsWith("utm_")]. *)
Definition is_tracking (k : jsstring) : bool :=
  kill_has k || startsWith k (js "utm_").

Definition keys (params : Params) : list jsstring := map fst params.

Definition delete (k : jsstring) (params : Params) : Params :=
  filter (fun p => negb (jsstring_eqb (fst p) k)) params.

(** The [for ... of] loop over the copied list of keys, with the
    parameters of [url] and [changed] as its state. *)
Fixpoint strip_loop (ks : list jsstring) (params : Params) (changed : bool)
  : Params * bool :=
  match ks with
  | [] => (params, changed)
  | k :: rest =>
      if is_tracking k then strip_loop rest (delete k params) true
      else strip_loop rest params changed
  end.

(** [stripTrackingParams]: the parameters that [history.replaceState] is
    called with, or [None] when it is not called. *)
Definition stripTrackingParams (params : Params) : option Params :=
  let (params', changed) := strip_loop (keys params) params false in
  if changed then Some params' else None.

(** The parameters of the page's URL after the function has run. *)
Definition after_strip (params : Params) : Params :=
  match stripTrackingParams params with
  | Some params' => params'
  | None => params
  end.

End Tracking.

(** ** script.js: the mobile navigation

    The toggle button and the list of links are looked up once and may be
    missing ([None]); the list of links is kept as its class list, the
    button as its [aria-expanded] attribute. *)

Module Nav.

Record Menu : Type := {
  navToggle : option (option jsstring);
  navLinks : option (list jsstring)
}.

Definition contains (token : jsstring) (classList : list jsstring) : bool :=
  existsb (jsstring_eqb token) classList.

Definition remove (token : jsstring) (classList : list jsstring)
  : list jsstring :=
  filter (fun c => negb (jsstring_eqb c token)) classList.

(** [classList.toggle(token)]: the new list, and whether the token is now
    in it. *)
Definition toggle (token : jsstring) (classList : list jsstring)
  : list jsstring * bool :=
  if contains token classList then (remove token classList, false)
  else (classList ++ [token], true).

Definition String_of_bool (b : bool) : jsstring :=
  if b then js "true" else js "false".

(** The click handler of the toggle button; it exists only when the
    button does, and it throws ([None]) when the list of links is
    missing. *)
Definition toggle_click (m : Menu) : option Menu :=
  match navToggle m with
  | None => Some m
  | Some _ =>
      match navLinks m with
      | None => None
      | Some classList =>
          let (classList', isOpen) := toggle (js "open") classList in
          Some {| navToggle := Some (Some (String_of_bool isOpen));
                  navLinks := Some classList' |}
      end
  end.

(** What the click handler of an in-page link does once its target has
    been looked up ([found]): nothing when there is none; else the default
    is prevented, the target is scrolled into view with the given
    behaviour, and the menu is closed. *)
Record LinkClick : Type := {
  defaultPrevented : bool;
  scrolled_with : option jsstring;
  menu_after : Menu
}.

Definition link_click (prefersReduced found : bool) (m : Menu) : LinkClick :=
  if negb found then
    {| defaultPrevented := false; scrolled_with := None; menu_after := m |}
  else
    {| defaultPrevented := true;
       scrolled_with := Some (if prefersReduced then js "auto" else js "smooth");
       menu_after :=
         {| navToggle :=
              match navToggle m with
              | Some _ => Some (Some (js "false"))
              | None => None
              end;
            navLinks := option_map (remove (js "open")) (navLinks m) |} |}.

Definition is_open (m : Menu) : bool :=
  match navLinks m with
  | Some classList => contains (js "open") classList
  | None => false
  end.

(** A user's way through the menu: clicks on the toggle and on links whose
    targets exist. *)
Inductive Click : Type := OnToggle | OnLink.

Definition click (prefersReduced : bool) (c : Click) (m : Menu) : option Menu :=
  match c with
  | OnToggle => toggle_click m
  | OnLink => Some (menu_after (link_click prefersReduced true m))
  end.

Fixpoint clicks (prefersReduced : bool) (cs : list Click) (m : Menu)
  : option Menu :=
  match cs with
  | [] => Some m
  | c :: rest =>
      match click prefersReduced c m with
      | Some m' => clicks prefersReduced rest m'
      | None => None
      end
  end.

End Nav.

(** ** script.js: the keys of the editor

    The editor is its text and its selection; the [keydown] handler
    indents on Tab and runs the code on Control-Enter and Command-Enter,
    reading the text and the two selects at that moment. *)

Module Keys.

Record Editor : Type := {
  value : jsstring;
  selectionStart : Z;
  selectionEnd : Z
}.

(** What the browser keeps true of a text area's selection. *)
Definition selection_ok (e : Editor) : Prop :=
  0 <= selectionStart e /\ selectionStart e <= selectionEnd e
  /\ selectionEnd e <= len (value e).

Record KeyEvent : Type := {
  key : jsstring;
  ctrlKey : bool;
  metaKey : bool
}.

Record Playground : Type := {
  editor : Editor;
  timeoutSelect : option Z;
  capSelect : option Z;
  page : Page.Page
}.

(** The Tab branch: the selection is replaced by four spaces and the
    caret is put after them (an index past the end is clamped by the
    browser). *)
Definition indent (e : Editor) : Editor :=
  let start := selectionStart e in
  let stop := selectionEnd e in
  let v := value e in
  let v' := slice v 0 start ++ js "    " ++ slice v stop (len v) in
  let caret := Z.min (start + 4) (len v') in
  {| value := v'; selectionStart := caret; selectionEnd := caret |}.

Definition inputs (g : Playground) : Page.Inputs :=
  {| Page.codeEditor_value := value (editor g);
     Page.timeoutSelect_value := timeoutSelect g;
     Page.capSelect_value := capSelect g |}.

(** The handler: whether the default was prevented, and the playground
    after it. *)
Definition keydown (e : KeyEvent) (g : Playground) : bool * Playground :=
  let (prevented, g1) :=
    if jsstring_eqb (key e) (js "Tab") then
      (true,
       {| editor := indent (editor g); timeoutSelect := timeoutSelect g;
          capSelect := capSelect g; page := page g |})
    else (false, g) in
  if (ctrlKey e || metaKey e) && jsstring_eqb (key e) (js "Enter") then
    (true,
     {| editor := editor g1; timeoutSelect := timeoutSelect g1;
        capSelect := capSelect g1;
        page := Page.runCode (inputs g1) (page g1) |})
  else (prevented, g1).

Definition tab_key : KeyEvent :=
  {| key := js "Tab"; ctrlKey := false; metaKey := false |}.

(** Whether the event is the shortcut that runs the code. *)
Definition is_run_shortcut (e : KeyEvent) : bool :=
  (ctrlKey e || metaKey e) && jsstring_eqb (key e) (js "Enter").

Definition keydowns (es : list KeyEvent) (g : Playground) : Playground :=
  fold_left (fun g e => snd (keydown e g)) es g.

End Keys.

(** ** Properties of the page kept over every sequence of events *)

(** A run is outstanding exactly when the script holds a time-out, and the
    time-out it holds is pending. *)
Definition watchdog_armed (s : Page.Page) : Prop :=
  (Page.running s = true <-> Page.runTimeout s <> None)
  /\ (forall id, Page.runTimeout s = Some id ->
                 In id (map fst (Page.pending s))).

(** The ids of the pending time-outs are below the next id. *)
Definition timers_fresh (s : Page.Page) : Prop :=
  forall t, In t (Page.pending s) -> (fst t < Page.next_timer s)%nat.

(** The messages posted to the worker [w], in order. *)
Definition messages_to (w : nat) (s : Page.Page) : list ToWorker :=
  map snd (filter (fun p => Nat.eqb (fst p) w) (Page.posted s)).

Definition is_run (m : ToWorker) : bool :=
  match m with Run _ _ => true | Init => false end.

(** Every worker constructed was sent [init] first and runs after it;
    nothing was posted to a worker not yet constructed. *)
Definition init_first (s : Page.Page) : Prop :=
  forall w,
    ((w < Page.created s)%nat ->
     exists runs, messages_to w s = Init :: runs /\ forallb is_run runs = true)
    /\ ((Page.created s <= w)%nat -> messages_to w s = []).

(** What one event may add to the messages posted: nothing, the [init] of
    a new worker, a run for the current worker, or both. *)
Inductive posts_of_step (s s' : Page.Page) : list (nat * ToWorker) -> Prop :=
  | posts_nothing :
      Page.created s' = Page.created s ->
      posts_of_step s s' []
  | posts_init :
      Page.created s' = S (Page.created s) ->
      Page.worker s' = Some (Page.created s) ->
      posts_of_step s s' [(Page.created s, Init)]
  | posts_run w code capBytes :
      Page.created s' = Page.created s ->
      Page.worker s = Some w ->
      Page.worker s' = Some w ->
      posts_of_step s s' [(w, Run code capBytes)]
  | posts_init_run code capBytes :
      Page.created s' = S (Page.created s) ->
      Page.worker s = None ->
      Page.worker s' = Some (Page.created s) ->
      posts_of_step s s'
        [(Page.created s, Init); (Page.created s, Run code capBytes)].

(** ** Numbers in template literals *)

(** Whole numbers are printed with all their digits up to 21 digits, a
    double keeping 17 significant ones at most, and with an exponent from
    there on. *)
Lemma String_of_Z_examples :
  String_of_Z 3000 = js "3000"
  /\ String_of_Z 0 = js "0"
  /\ String_of_Z (-250) = js "-250"
  /\ String_of_Z (2 ^ 53 + 1) = js "9007199254740992"
  /\ String_of_Z (2 ^ 60) = js "1152921504606847000"
  /\ String_of_Z (10 ^ 21) = js "1e+21"
  /\ String_of_Z (10 ^ 22) = js "1e+22"
  /\ String_of_Z 12345678901234567890123 = js "1.2345678901234568e+22"
  /\ String_of_Z (2 ^ 1024) = js "Infinity".
Proof. vm_compute. repeat split. Qed.

(** ** Lemmas on strings and on the capper *)

Lemma len_app (a b : jsstring) : len (a ++ b) = len a + len b.
Proof. unfold len. rewrite length_app. lia. Qed.

Lemma len_nonneg (a : jsstring) : 0 <= len a.
Proof. unfold len. lia. Qed.

Lemma slice_prefix (s : jsstring) (n : Z) :
  0 <= n -> slice s 0 n = firstn (Z.to_nat n) s.
Proof.
  intros Hn. unfold slice.
  assert (H0 : (0 <? 0) = false) by reflexivity. rewrite H0.
  destruct (n <? 0) eqn:E; [apply Z.ltb_lt in E; lia|].
  pose proof (len_nonneg s) as Hs.
  rewrite (Z.min_l 0 (len s)) by lia. simpl skipn.
  rewrite Z.sub_0_r.
  destruct (Z.le_ge_cases n (len s)) as [Hle|Hge].
  - rewrite Z.min_l by lia. reflexivity.
  - rewrite Z.min_r by lia. unfold len in *.
    rewrite Nat2Z.id.
    rewrite firstn_all. symmetry. apply firstn_all2. lia.
Qed.

Lemma len_firstn (s : jsstring) (n : Z) :
  0 <= n -> len (firstn (Z.to_nat n) s) = Z.min n (len s).
Proof.
  intros Hn. unfold len. rewrite length_firstn. lia.
Qed.

Lemma len_marker : len Worker.truncation_marker = 21.
Proof. reflexivity. Qed.

Lemma firstn_app_cut (a b : jsstring) (n : Z) :
  len a <= n ->
  firstn (Z.to_nat n) (a ++ b) = a ++ firstn (Z.to_nat (n - len a)) b.
Proof.
  intros H. unfold len in *. rewrite firstn_app.
  rewrite firstn_all2 by lia.
  f_equal. f_equal. lia.
Qed.

Lemma firstn_app_short (b c : jsstring) (n : Z) :
  n < len b ->
  firstn (Z.to_nat n) (b ++ c) = firstn (Z.to_nat n) b.
Proof.
  intros H. unfold len in *. rewrite firstn_app.
  replace (Z.to_nat n - List.length b)%nat with 0%nat by lia.
  simpl. apply app_nil_r.
Qed.

(** While the chunks fit, the loop only appends. *)
Lemma capJoin_loop_fits (chunks : list jsstring) :
  forall out capBytes,
    (forall pre c post, chunks = pre ++ c :: post ->
                        len out + len (List.concat pre) + len c <= capBytes) ->
    Worker.capJoin_loop out chunks capBytes = out ++ List.concat chunks.
Proof.
  induction chunks as [|chunk rest IH]; intros out capBytes H; simpl.
  - symmetry. apply app_nil_r.
  - pose proof (H [] chunk rest eq_refl) as H0. simpl in H0.
    change (len []) with 0 in H0.
    destruct (len out + len chunk >? capBytes) eqn:E.
    + apply Z.gtb_lt in E. lia.
    + rewrite IH.
      * now rewrite app_assoc.
      * intros pre c post ->.
        pose proof (H (chunk :: pre) c post eq_refl) as H1.
        simpl in H1. rewrite !len_app in *. lia.
Qed.

(** Once the chunks go over the budget, the loop returns the first
    [capBytes] code units of everything, then the marker. *)
Lemma capJoin_loop_over (chunks : list jsstring) :
  forall out capBytes,
    len out <= capBytes ->
    capBytes < len out + len (List.concat chunks) ->
    Worker.capJoin_loop out chunks capBytes =
      firstn (Z.to_nat capBytes) (out ++ List.concat chunks)
      ++ Worker.truncation_marker.
Proof.
  induction chunks as [|chunk rest IH]; intros out capBytes Hout Hover; simpl.
  - simpl in Hover. change (len []) with 0 in Hover. lia.
  - simpl in Hover. rewrite len_app in Hover.
    pose proof (len_nonneg out) as Hn.
    destruct (len out + len chunk >? capBytes) eqn:E.
    + apply Z.gtb_lt in E.
      rewrite Z.max_r by lia. rewrite slice_prefix by lia.
      f_equal. rewrite firstn_app_cut by assumption.
      f_equal. apply eq_sym, firstn_app_short. lia.
    + assert (Hle : len out + len chunk <= capBytes).
      { destruct (Z.gtb_spec (len out + len chunk) capBytes); [discriminate|lia]. }
      rewrite IH.
      * now rewrite app_assoc.
      * rewrite len_app. lia.
      * rewrite len_app. lia.
Qed.

Lemma within_budget_total (chunks : list jsstring) (capBytes : Z) :
  len (List.concat chunks) <= capBytes ->
  forall pre c post, chunks = pre ++ c :: post ->
                     len [] + len (List.concat pre) + len c <= capBytes.
Proof.
  intros H pre c post ->. rewrite List.concat_app in H. simpl in H.
  rewrite !len_app in H. change (len []) with 0.
  pose proof (len_nonneg (List.concat post)). lia.
Qed.

Lemma capJoin_fits (chunks : list jsstring) (capBytes : Z) :
  len (List.concat chunks) <= capBytes ->
  Worker.capJoin chunks capBytes = List.concat chunks.
Proof.
  intros H. unfold Worker.capJoin.
  rewrite capJoin_loop_fits by (apply within_budget_total; exact H).
  reflexivity.
Qed.

Lemma capJoin_over (chunks : list jsstring) (capBytes : Z) :
  0 <= capBytes ->
  capBytes < len (List.concat chunks) ->
  Worker.capJoin chunks capBytes =
    firstn (Z.to_nat capBytes) (List.concat chunks) ++ Worker.truncation_marker.
Proof.
  intros H0 H. unfold Worker.capJoin.
  rewrite capJoin_loop_over; [reflexivity| exact H0 | exact H].
Qed.

Lemma len_capJoin_over (chunks : list jsstring) (capBytes : Z) :
  0 <= capBytes ->
  capBytes < len (List.concat chunks) ->
  len (Worker.capJoin chunks capBytes) =
    capBytes + len Worker.truncation_marker.
Proof.
  intros H0 H. rewrite capJoin_over by assumption.
  rewrite len_app, len_firstn by assumption. lia.
Qed.

(** X19.  With a budget below zero, which [Math.max] provides for, the
    first chunk already is over it, and the capper returns the marker
    alone. *)
Lemma capJoin_negative_budget (chunk : jsstring) (rest : list jsstring)
    (capBytes : Z) :
  capBytes < 0 ->
  Worker.capJoin (chunk :: rest) capBytes = Worker.truncation_marker.
Proof.
  intros H. unfold Worker.capJoin, Worker.capJoin_loop.
  change (len []) with 0. pose proof (len_nonneg chunk) as Hc.
  destruct (Z.gtb_spec (0 + len chunk) capBytes) as [_|Hle]; [|lia].
  rewrite Z.max_l by lia. rewrite slice_prefix by lia. reflexivity.
Qed.

(** ** The output capper: bound, order, truncation *)



(** C10.  When the chunks together are longer than the budget [capBytes]
    (a count, so not negative), the capper returns exactly the first
    [capBytes] code units of their concatenation in order, followed by the
    marker: a line feed, U+2026, [[output truncated]] and a line feed.  The
    result is then exactly [capBytes] plus the marker's length long, and
    with a budget of 0 it is the marker alone. *)
Theorem C10_capJoin_exact_prefix (chunks : list jsstring) (capBytes : Z) :
  0 <= capBytes ->
  capBytes < len (List.concat chunks) ->
  Worker.capJoin chunks capBytes
  = firstn (Z.to_nat capBytes) (List.concat chunks)
    ++ [10%N; 8230%N] ++ js "[output truncated]" ++ [10%N]
  /\ len (Worker.capJoin chunks capBytes)
     = capBytes + len Worker.truncation_marker
  /\ (capBytes = 0 ->
      Worker.capJoin chunks capBytes = Worker.truncation_marker).
Proof.
  intros Hcap Hover. repeat split.
  - now apply capJoin_over.
  - now apply len_capJoin_over.
  - intros ->. now rewrite capJoin_over.
Qed.

Lemma C10_witness :
  Worker.capJoin [js "print"; js "ed"] 0 = Worker.truncation_marker
  /\ len (Worker.capJoin [js "print"; js "ed"] 6) = 6 + 21.
Proof.
  split.
  - apply (C10_capJoin_exact_prefix [js "print"; js "ed"] 0);
      [lia | reflexivity | reflexivity].
  - apply (C10_capJoin_exact_prefix [js "print"; js "ed"] 6);
      [lia | reflexivity].
Defined.

(** C4 as the specification states it asks the capper to report
    [truncated = false].  The capper returns a string: for the chunk
    ["hi"] and a budget of 5 it returns ["hi"], and reading [truncated]
    from that value gives [undefined], not [false]. *)
Lemma C4_no_truncated_flag :
  len (List.concat [js "hi"]) <= 5
  /\ Worker.capJoin_value [js "hi"] 5 = JString (js "hi")
  /\ get_prop (Worker.capJoin_value [js "hi"] 5) "truncated" <> JBool false.
Proof.
  split; [vm_compute; discriminate|].
  split; [reflexivity|]. vm_compute. discriminate.
Qed.

(** C4, amended.  When no chunk exceeds the remaining budget, the capper
    returns the concatenation of the chunks unmodified, with no marker
    appended; what it returns is that string alone, and there is no
    [truncated] flag to read from it. *)
Theorem C4_capJoin_within_budget (chunks : list jsstring) (capBytes : Z) :
  (forall pre c post, chunks = pre ++ c :: post ->
                      len (List.concat pre) + len c <= capBytes) ->
  Worker.capJoin chunks capBytes = List.concat chunks
  /\ Worker.capJoin_value chunks capBytes = JString (List.concat chunks)
  /\ get_prop (Worker.capJoin_value chunks capBytes) "truncated" = JUndefined.
Proof.
  intros H.
  assert (E : Worker.capJoin chunks capBytes = List.concat chunks).
  { unfold Worker.capJoin. rewrite capJoin_loop_fits; [reflexivity|].
    intros pre c post Hc. specialize (H pre c post Hc).
    change (len []) with 0. lia. }
  unfold Worker.capJoin_value. rewrite E. repeat split.
Qed.

Lemma C4_witness :
  Worker.capJoin [js "out"; js "err"] 6 = js "outerr".
Proof.
  apply (C4_capJoin_within_budget [js "out"; js "err"] 6).
  intros pre c post H.
  destruct pre as [|p0 [|p1 [|p2 pre]]]; simpl in H; inversion H; subst;
    vm_compute; discriminate.
Defined.

(** ** The worker's answer to a [run] message *)

(** The answer to [run] is a [result] message whenever there is one. *)
Lemma run_posts_result
    (Interp : Type)
    (py_exec : Interp -> list (jsstring * jsstring) -> jsstring
               -> Worker.Exec * Interp)
    (loadPyodide : jsstring + Interp)
    pyodide code capBytes m pyodide' :
  Worker.onmessage Interp py_exec loadPyodide pyodide (Run code capBytes)
  = Worker.Posts m pyodide' ->
  exists ok output, m = Result ok output.
Proof.
  unfold Worker.onmessage.
  destruct (Worker.initPyodide Interp loadPyodide pyodide) as [e|py].
  - intros H. inversion H. eauto.
  - destruct (Worker.__run_user_code Interp py_exec py code) as [[res|e|] py'];
      intros H; inversion H; eauto.
Qed.

(** When the helper returns, its dictionary reaches the worker as a
    [Map], of which [ok], [stdout] and [stderr] read [undefined]: no chunk
    is pushed, and the answer is [ok = false] with the placeholder. *)
Lemma run_after_return
    (Interp : Type)
    (py_exec : Interp -> list (jsstring * jsstring) -> jsstring
               -> Worker.Exec * Interp)
    (loadPyodide : jsstring + Interp)
    pyodide py code capBytes res py' :
  Worker.initPyodide Interp loadPyodide pyodide = inr py ->
  Worker.__run_user_code Interp py_exec py code = (Worker.Ret res, py') ->
  Worker.onmessage Interp py_exec loadPyodide pyodide (Run code capBytes)
  = Worker.Posts (Result false (js "(no output)")) (Some py').
Proof.
  unfold Worker.onmessage. intros -> ->. reflexivity.
Qed.

Lemma truthy_app_marker (a : jsstring) :
  truthy (a ++ Worker.truncation_marker) = true.
Proof. destruct a; reflexivity. Qed.

(** C5 as the specification states it wants a [truncated = true] in the
    result of a run that printed more than the budget.  With a budget of 4
    the program [print('hello')] has six code units captured; the result
    message that the worker posts has no [truncated] property (it reads
    [undefined]), and the capper's value is a string with no [output] and
    no [truncated] property. *)
Lemma C5_no_truncated_in_result :
  fst (Worker.__run_user_code Demo.Interp Demo.py_exec 0 Demo.print_hello)
  = Worker.Ret {| Worker.ok := true;
                  Worker.stdout := js "hello" ++ Demo.nl;
                  Worker.stderr := [] |}
  /\ 4 < len (js "hello" ++ Demo.nl)
  /\ Demo.onmessage None (Run Demo.print_hello (Some 4))
     = Worker.Posts (Result false (js "(no output)")) (Some 0)
  /\ lookup "truncated" (wire_from_worker (Result false (js "(no output)")))
     <> JBool true
  /\ Worker.capJoin_value [js "hello" ++ Demo.nl] 4
     = JString (js "hell" ++ Worker.truncation_marker)
  /\ get_prop (Worker.capJoin_value [js "hello" ++ Demo.nl] 4) "output"
     = JUndefined
  /\ get_prop (Worker.capJoin_value [js "hello" ++ Demo.nl] 4) "truncated"
     <> JBool true.
Proof.
  split; [reflexivity|]. split; [reflexivity|]. split; [reflexivity|].
  split; [vm_compute; discriminate|]. split; [reflexivity|].
  split; [reflexivity|]. vm_compute. discriminate.
Qed.

(** C5, amended.  The capper is a function of its two arguments that
    returns a string, the capped output, and nothing else; when the
    chunks are longer than the budget that string is the first [capBytes]
    code units of the chunks followed by the marker, which is the
    capper's only sign of truncation.  The result message of a run has
    the properties [type], [ok] and [output] and no [truncated]. *)
Theorem C5_string_and_no_truncated
    (Interp : Type)
    (py_exec : Interp -> list (jsstring * jsstring) -> jsstring
               -> Worker.Exec * Interp)
    (loadPyodide : jsstring + Interp) :
  (forall chunks capBytes,
      Worker.capJoin_value chunks capBytes
      = JString (Worker.capJoin chunks capBytes))
  /\ (forall chunks capBytes,
        0 <= capBytes ->
        capBytes < len (List.concat chunks) ->
        Worker.capJoin_value chunks capBytes
        = JString (firstn (Z.to_nat capBytes) (List.concat chunks)
                   ++ Worker.truncation_marker))
  /\ (forall pyodide code capBytes m pyodide',
        Worker.onmessage Interp py_exec loadPyodide pyodide (Run code capBytes)
        = Worker.Posts m pyodide' ->
        (exists ok output,
            wire_from_worker m
            = [("type"%string, JString (js "result"));
               ("ok"%string, JBool ok);
               ("output"%string, JString output)])
        /\ lookup "truncated" (wire_from_worker m) = JUndefined).
Proof.
  split; [reflexivity|]. split.
  - intros chunks capBytes Hcap Hover. unfold Worker.capJoin_value.
    now rewrite capJoin_over.
  - intros pyodide code capBytes m pyodide' H.
    destruct (run_posts_result _ _ _ _ _ _ _ _ H) as (ok & output & ->).
    split; [exists ok, output|]; reflexivity.
Qed.

Lemma C5_witness :
  Worker.capJoin_value [js "hello" ++ Demo.nl] 4
  = JString (firstn (Z.to_nat 4) (List.concat [js "hello" ++ Demo.nl])
             ++ Worker.truncation_marker)
  /\ lookup "truncated" (wire_from_worker (Result false (js "(no output)")))
     = JUndefined.
Proof.
  destruct (C5_string_and_no_truncated Demo.Interp Demo.py_exec
              Demo.loadPyodide) as (_ & Hover & Hmsg).
  split.
  - apply (Hover [js "hello" ++ Demo.nl] 4); [lia|reflexivity].
  - apply (Hmsg None Demo.print_hello (Some 4)
                (Result false (js "(no output)")) (Some 0)).
    reflexivity.
Defined.

(** ** Exceptions of the user's code *)





(** X9.  A [BaseException] outside [Exception] is not caught by the helper;
    the worker's own [catch] turns it into a result with [ok = false]
    whose output is [Worker error: ] and the description, and what the
    code had written before is not shown. *)
Lemma other_exception_is_worker_error
    (Interp : Type)
    (py_exec : Interp -> list (jsstring * jsstring) -> jsstring
               -> Worker.Exec * Interp)
    (loadPyodide : jsstring + Interp)
    (pyodide : option Interp) (py py' : Interp)
    (code : jsstring) (capBytes : option Z) (e : Worker.Exec)
    (descr : jsstring) :
  Worker.initPyodide Interp loadPyodide pyodide = inr py ->
  py_exec py Worker.fresh_globals code = (e, py') ->
  Worker.ending e = Worker.RaisedOther descr ->
  Worker.onmessage Interp py_exec loadPyodide pyodide (Run code capBytes)
  = Worker.Posts (Result false (js "Worker error: " ++ descr)) (Some py').
Proof.
  intros Hinit Hexec Hend.
  unfold Worker.onmessage, Worker.__run_user_code.
  rewrite Hinit, Hexec, Hend. reflexivity.
Qed.

(** ** One interpreter, many runs *)

(** C8 as the specification states it: the same code run twice captures
    the same output.  The program that counts its runs in an attribute of
    the module [sys] has [1] captured by the helper the first time and
    [2] the second time in one worker, which keeps for the second run the
    interpreter that the first run left: the namespace is new for each
    run, the interpreter is not. *)
Lemma C8_second_run_differs :
  Worker.__run_user_code Demo.Interp Demo.py_exec 0 Demo.count_runs
  = (Worker.Ret {| Worker.ok := true;
                   Worker.stdout := js "1" ++ Demo.nl;
                   Worker.stderr := [] |}, 1)
  /\ Worker.__run_user_code Demo.Interp Demo.py_exec 1 Demo.count_runs
     = (Worker.Ret {| Worker.ok := true;
                      Worker.stdout := js "2" ++ Demo.nl;
                      Worker.stderr := [] |}, 2)
  /\ (exists m, Demo.onmessage (Some 0) (Run Demo.count_runs (Some 16000))
                = Worker.Posts m (Some 1))
  /\ js "1" ++ Demo.nl <> js "2" ++ Demo.nl.
Proof.
  split; [reflexivity|]. split; [reflexivity|].
  split; [eexists; reflexivity|]. discriminate.
Qed.

(** C8, amended.  Every run executes in a new top-level namespace: the
    helper calls [exec] with the dictionary [{"__name__": "__main__"}] and
    with no other, so two engines that agree on that namespace give the
    same helper.  The interpreter is kept from one run to the next: what
    the helper captures is what [exec] wrote starting from the state the
    interpreter was in, the helper leaves the interpreter in the state
    [exec] left it in, and the worker hands that interpreter to the next
    run. *)
Theorem C8_fresh_namespace_each_run
    (Interp : Type)
    (py_exec : Interp -> list (jsstring * jsstring) -> jsstring
               -> Worker.Exec * Interp)
    (loadPyodide : jsstring + Interp) :
  (forall py_exec',
      (forall py code,
          py_exec' py Worker.fresh_globals code
          = py_exec py Worker.fresh_globals code) ->
      forall py code,
        Worker.__run_user_code Interp py_exec' py code
        = Worker.__run_user_code Interp py_exec py code)
  /\ (forall py code,
        snd (Worker.__run_user_code Interp py_exec py code)
        = snd (py_exec py Worker.fresh_globals code))
  /\ (forall py code res py',
        Worker.__run_user_code Interp py_exec py code = (Worker.Ret res, py') ->
        Worker.stdout res
        = Worker.written_out (fst (py_exec py Worker.fresh_globals code)))
  /\ (forall pyodide py code capBytes m pyodide',
        Worker.initPyodide Interp loadPyodide pyodide = inr py ->
        Worker.onmessage Interp py_exec loadPyodide pyodide (Run code capBytes)
        = Worker.Posts m pyodide' ->
        pyodide' = Some (snd (py_exec py Worker.fresh_globals code))).
Proof.
  split; [|split; [|split]].
  - intros py_exec' Hsame py code. unfold Worker.__run_user_code.
    now rewrite Hsame.
  - intros py code. unfold Worker.__run_user_code.
    destruct (py_exec py Worker.fresh_globals code) as [e py1].
    destruct (Worker.ending e); reflexivity.
  - intros py code res py'. unfold Worker.__run_user_code.
    destruct (py_exec py Worker.fresh_globals code) as [e py1].
    destruct (Worker.ending e); intros H; inversion H; reflexivity.
  - intros pyodide py code capBytes m pyodide' Hinit.
    unfold Worker.onmessage, Worker.__run_user_code. rewrite Hinit.
    destruct (py_exec py Worker.fresh_globals code) as [e py1].
    destruct (Worker.ending e); intros H; inversion H; reflexivity.
Qed.

Lemma C8_witness :
  Some 1 = Some (snd (Demo.py_exec 0 Worker.fresh_globals Demo.count_runs)).
Proof.
  destruct (C8_fresh_namespace_each_run Demo.Interp Demo.py_exec
              Demo.loadPyodide) as (_ & _ & _ & Hkept).
  apply (Hkept None 0 Demo.count_runs (Some 16000)
               (Result false (js "(no output)")) (Some 1)); reflexivity.
Defined.

(** ** Submitting *)

(** The reply used in the examples is the answer of a loaded worker to the
    run that the page posts for [print(1)]. *)
Lemma result_1_answers_run_print_1 :
  Demo.onmessage (Some 0) Example.run_print_1
  = Worker.Posts Example.result_1 (Some 0).
Proof. reflexivity. Qed.

Lemma trimStart_nil (s : jsstring) :
  trimStart s = [] <-> forallb is_white_space s = true.
Proof.
  induction s as [|c s IH]; simpl.
  - tauto.
  - destruct (is_white_space c); simpl.
    + exact IH.
    + split; discriminate.
Qed.

Lemma trimStart_head (s : jsstring) (c : N) (t : jsstring) :
  trimStart s = c :: t -> is_white_space c = false.
Proof.
  induction s as [|c0 s IH]; simpl; [discriminate|].
  destruct (is_white_space c0) eqn:E0; [exact IH|].
  intros H. inversion H; subst. exact E0.
Qed.

Lemma trim_nil (s : jsstring) :
  trim s = [] <-> forallb is_white_space s = true.
Proof.
  unfold trim. split.
  - intros H. apply trimStart_nil.
    destruct (trimStart s) as [|c t] eqn:E; [reflexivity|].
    exfalso. apply (f_equal (@rev N)) in H. rewrite rev_involutive in H.
    simpl in H. apply trimStart_nil in H.
    rewrite forallb_forall in H.
    assert (Hc : is_white_space c = true).
    { apply H. apply in_or_app. right. now left. }
    apply trimStart_head in E. congruence.
  - intros H. apply trimStart_nil in H. rewrite H. reflexivity.
Qed.

(** X20.  Code that is empty or white space only is refused by [runCode]
    itself, whichever handler called it: a notice is shown and nothing
    else in the page changes, so nothing is posted to the worker. *)
Lemma runCode_blank (i : Page.Inputs) (s : Page.Page) :
  forallb is_white_space (Page.codeEditor_value i) = true ->
  Page.runCode i s
  = Page.setOutput ([9888%N; 65039%N] ++ js " Please write some code first.") s
  /\ Page.posted (Page.runCode i s) = Page.posted s
  /\ Page.running (Page.runCode i s) = Page.running s.
Proof.
  intros H. apply trim_nil in H. unfold Page.runCode. rewrite H. simpl.
  repeat split.
Qed.

(** C6, evaluated where it fails.  [runCode] does not look at the status
    or at [running].  Control-Enter on a page whose worker is still
    loading (run button disabled) posts the run; Control-Enter while a run
    is outstanding posts a second run and sets a second time-out, leaving
    the first one pending; and after a time-out the run button is enabled
    while the pill says loading, so a click posts a run as well. *)
Theorem C6_run_posted_while_not_ready :
  let loading := Page.run_events [Page.Load] Page.initial in
  let busy := Page.handle (Page.ClickRun Example.print_1) Example.ready_page in
  let restarted := Page.handle (Page.TimerFires 1) busy in
  (Page.pyStatus_class loading = Page.status_loading
   /\ Page.runBtn_disabled loading = true
   /\ Page.handle (Page.ClickRun Example.print_1) loading = loading
   /\ Page.posted (Page.handle (Page.CtrlEnter Example.print_1) loading)
      = [(0%nat, Init); (0%nat, Example.run_print_1)])
  /\ (Page.running busy = true
      /\ Page.runBtn_disabled busy = true
      /\ Page.posted busy = [(0%nat, Init); (0%nat, Example.run_print_1)]
      /\ Page.posted (Page.handle (Page.CtrlEnter Example.print_1) busy)
         = [(0%nat, Init); (0%nat, Example.run_print_1);
            (0%nat, Example.run_print_1)]
      /\ Page.pending (Page.handle (Page.CtrlEnter Example.print_1) busy)
         = [(1%nat, 3000); (2%nat, 3000)]
      /\ Page.runTimeout (Page.handle (Page.CtrlEnter Example.print_1) busy)
         = Some 2%nat)
  /\ (Page.pyStatus_class restarted = Page.status_loading
      /\ Page.runBtn_disabled restarted = false
      /\ Page.posted (Page.handle (Page.ClickRun Example.print_1) restarted)
         = [(0%nat, Init); (0%nat, Example.run_print_1); (1%nat, Init);
            (1%nat, Example.run_print_1)]).
Proof. vm_compute. repeat split. Qed.

(** ** One run, one outcome *)

(** C2, evaluated where it fails.  Two runs submitted with Control-Enter,
    the second while the first is outstanding: both results arrive and
    are shown, the first of them clears the second run's time-out, and the
    first run's time-out, which nothing clears, then fires and reports a
    time-out: three outcomes for two runs. *)
Theorem C2_two_runs_three_outcomes :
  let s :=
    Page.run_events
      [Page.CtrlEnter Example.print_1; Page.CtrlEnter Example.print_1;
       Page.WorkerMessage 0 Example.result_1;
       Page.WorkerMessage 0 Example.result_1;
       Page.TimerFires 1]
      Example.ready_page in
  Page.runs_posted s
  = [(0%nat, Example.run_print_1); (0%nat, Example.run_print_1)]
  /\ Page.outcomes s
     = [Page.GotResult 0 (js "(no output)");
        Page.GotResult 0 (js "(no output)"); Page.TimedOut]
  /\ Page.live s = [1%nat].
Proof. vm_compute. repeat split. Qed.

(** ** Which worker can still speak *)

Lemma one_worker_initial : one_worker Page.initial.
Proof. split; [reflexivity | discriminate]. Qed.

Lemma one_worker_ensureWorker (s : Page.Page) :
  one_worker s ->
  one_worker (snd (Page.ensureWorker s))
  /\ Page.worker (snd (Page.ensureWorker s))
     = Some (fst (Page.ensureWorker s)).
Proof.
  intros [Hlive Hrank]. unfold Page.ensureWorker.
  destruct (Page.worker s) as [w|] eqn:Hw; simpl.
  - split; [split|]; [rewrite Hw; exact Hlive | rewrite Hw; exact Hrank
                     | exact Hw].
  - split; [split|]; simpl.
    + rewrite Hlive. reflexivity.
    + intros w H. inversion H. lia.
    + reflexivity.
Qed.

Lemma remove_nat_single (w : nat) : Page.remove_nat w [w] = [].
Proof. unfold Page.remove_nat. simpl. now rewrite Nat.eqb_refl. Qed.

Lemma one_worker_killWorker (s : Page.Page) :
  one_worker s ->
  one_worker (Page.killWorker s)
  /\ Page.worker (Page.killWorker s) = None
  /\ Page.created (Page.killWorker s) = Page.created s.
Proof.
  intros [Hlive Hrank]. unfold Page.killWorker.
  destruct (Page.worker s) as [w|] eqn:Hw; simpl.
  - rewrite Hlive, remove_nat_single. repeat split. discriminate.
  - unfold one_worker. rewrite Hw. repeat split; [exact Hlive | discriminate].
Qed.

(** The steps that touch neither the worker variable nor the browser's
    workers keep the property. *)
Lemma one_worker_same (s s' : Page.Page) :
  Page.worker s' = Page.worker s ->
  Page.live s' = Page.live s ->
  Page.created s' = Page.created s ->
  one_worker s -> one_worker s'.
Proof.
  intros Hw Hl Hc [Hlive Hrank]. unfold one_worker.
  rewrite Hw, Hl, Hc. now split.
Qed.

Lemma finishRun_workers (s : Page.Page) :
  Page.worker (Page.finishRun s) = Page.worker s
  /\ Page.live (Page.finishRun s) = Page.live s
  /\ Page.created (Page.finishRun s) = Page.created s.
Proof.
  unfold Page.finishRun. simpl.
  destruct (Page.runTimeout s); repeat split.
Qed.

Lemma one_worker_finishRun (s : Page.Page) :
  one_worker s -> one_worker (Page.finishRun s).
Proof.
  destruct (finishRun_workers s) as (Hw & Hl & Hc).
  now apply one_worker_same.
Qed.

(** The restart of a time-out and of the stop button: the old worker is
    terminated, and the new current worker is one constructed after it. *)
Lemma one_worker_restart (s : Page.Page) :
  one_worker s ->
  let s' := snd (Page.ensureWorker (Page.killWorker s)) in
  one_worker s' /\ Page.worker s' = Some (Page.created s).
Proof.
  intros H. destruct (one_worker_killWorker s H) as (Hk & Hnone & Hcr).
  destruct (one_worker_ensureWorker _ Hk) as (He & Hcur).
  split; [exact He|]. cbv zeta. rewrite Hcur.
  unfold Page.ensureWorker. rewrite Hnone. simpl. now rewrite Hcr.
Qed.

Lemma runCode_workers (i : Page.Inputs) (s : Page.Page) :
  one_worker s -> one_worker (Page.runCode i s).
Proof.
  intros H. unfold Page.runCode.
  destruct (negb (truthy (trim (Page.codeEditor_value i)))).
  - now apply (one_worker_same s).
  - destruct (one_worker_ensureWorker s H) as (He & _).
    destruct (Page.ensureWorker s) as [w s1]. simpl in He.
    now apply (one_worker_same s1).
Qed.

Lemma stopCode_workers (s : Page.Page) :
  one_worker s -> one_worker (Page.stopCode s).
Proof.
  intros H. unfold Page.stopCode.
  destruct (negb (Page.running s)); [exact H|].
  apply one_worker_finishRun.
  match goal with
  | |- one_worker (snd (Page.ensureWorker (Page.killWorker ?t))) =>
      apply (one_worker_restart t)
  end.
  now apply (one_worker_same s).
Qed.

Lemma timeout_callback_workers (timeoutMs : Z) (s : Page.Page) :
  one_worker s -> one_worker (Page.timeout_callback timeoutMs s).
Proof.
  intros H. unfold Page.timeout_callback.
  apply one_worker_finishRun.
  match goal with
  | |- one_worker (snd (Page.ensureWorker (Page.killWorker ?t))) =>
      apply (one_worker_restart t)
  end.
  now apply (one_worker_same s).
Qed.

Lemma worker_onmessage_workers (w : nat) (msg : FromWorker) (s : Page.Page) :
  one_worker s -> one_worker (Page.worker_onmessage w msg s).
Proof.
  intros H. destruct msg as [|error|ok output]; simpl.
  - now apply (one_worker_same s).
  - now apply (one_worker_same s).
  - apply (one_worker_same (Page.finishRun s)); try reflexivity.
    now apply one_worker_finishRun.
Qed.

Lemma worker_onerror_workers (w : nat) (message : jsstring) (s : Page.Page) :
  one_worker s -> one_worker (Page.worker_onerror w message s).
Proof.
  intros H. unfold Page.worker_onerror.
  apply (one_worker_same (Page.finishRun s)); try reflexivity.
  now apply one_worker_finishRun.
Qed.

Lemma handle_workers (e : Page.Event) (s : Page.Page) :
  one_worker s -> one_worker (Page.handle e s).
Proof.
  intros H. destruct e as [|i|i| |id|w msg|w message]; simpl.
  - unfold Page.boot.
    apply one_worker_ensureWorker. now apply (one_worker_same s).
  - destruct (Page.runBtn_disabled s); [exact H|now apply runCode_workers].
  - now apply runCode_workers.
  - destruct (Page.stopBtn_disabled s); [exact H|now apply stopCode_workers].
  - destruct (Page.find_timer id (Page.pending s)); [|exact H].
    apply timeout_callback_workers. now apply (one_worker_same s).
  - destruct (Page.is_live w s); [|exact H].
    now apply worker_onmessage_workers.
  - destruct (Page.is_live w s); [|exact H].
    now apply worker_onerror_workers.
Qed.

Lemma run_events_app (evs evs' : list Page.Event) (s : Page.Page) :
  Page.run_events (evs ++ evs') s
  = Page.run_events evs' (Page.run_events evs s).
Proof. unfold Page.run_events. apply fold_left_app. Qed.

Lemma one_worker_reachable (evs : list Page.Event) :
  one_worker (Page.run_events evs Page.initial).
Proof.
  induction evs as [|e evs IH] using rev_ind.
  - exact one_worker_initial.
  - rewrite run_events_app. simpl. now apply handle_workers.
Qed.

Lemma not_current_not_live (s : Page.Page) (w : nat) :
  one_worker s -> Page.worker s <> Some w -> Page.is_live w s = false.
Proof.
  intros [Hlive _] Hw. unfold Page.is_live. rewrite Hlive.
  destruct (Page.worker s) as [w0|]; simpl; [|reflexivity].
  destruct (Nat.eqb_spec w w0); [subst; congruence | reflexivity].
Qed.

Lemma timeout_callback_replaces (timeoutMs : Z) (s : Page.Page) :
  one_worker s ->
  Page.worker (Page.timeout_callback timeoutMs s) = Some (Page.created s).
Proof.
  intros H. unfold Page.timeout_callback.
  match goal with
  | |- Page.worker (Page.finishRun ?u) = _ =>
      destruct (finishRun_workers u) as (-> & _ & _)
  end.
  match goal with
  | |- Page.worker (snd (Page.ensureWorker (Page.killWorker ?t))) = _ =>
      apply (one_worker_restart t)
  end.
  now apply (one_worker_same s).
Qed.

Lemma stopCode_replaces (s : Page.Page) :
  one_worker s -> Page.running s = true ->
  Page.worker (Page.stopCode s) = Some (Page.created s).
Proof.
  intros H Hr. unfold Page.stopCode. rewrite Hr. simpl negb. cbv iota.
  match goal with
  | |- Page.worker (Page.finishRun ?u) = _ =>
      destruct (finishRun_workers u) as (-> & _ & _)
  end.
  match goal with
  | |- Page.worker (snd (Page.ensureWorker (Page.killWorker ?t))) = _ =>
      apply (one_worker_restart t)
  end.
  now apply (one_worker_same s).
Qed.

(** ** Late results *)

(** C1 as the specification states it.  The run request that the page
    posts for [print(1)] is [{type, code, capBytes}] and the result is
    [{type, ok, output}]: neither has a generation.  And the handler does
    not look at where a message comes from: after a time-out has replaced
    worker 0 by worker 1, the handler of worker 0, given a result, shows
    it. *)
Lemma C1_messages_have_no_generation :
  let busy := Page.handle (Page.ClickRun Example.print_1) Example.ready_page in
  let restarted := Page.handle (Page.TimerFires 1) busy in
  Page.posted busy = [(0%nat, Init); (0%nat, Example.run_print_1)]
  /\ wire_to_worker Example.run_print_1
     = [("type"%string, JString (js "run"));
        ("code"%string, JString (js "print(1)"));
        ("capBytes"%string, JNumber 16000)]
  /\ lookup "generation" (wire_to_worker Example.run_print_1) = JUndefined
  /\ lookup "generation" (wire_from_worker Example.result_1) = JUndefined
  /\ Page.worker restarted = Some 1%nat
  /\ Page.output (Page.worker_onmessage 0 Example.result_1 restarted)
     = js "(no output)"
  /\ Page.worker_onmessage 0 Example.result_1 restarted <> restarted.
Proof.
  vm_compute. repeat split. discriminate.
Qed.

(** C1, amended.  No message carries a generation, and the handler of a
    result shows whatever result it is given.  What keeps a late result
    away is termination: in every state the page can reach, the only
    worker constructed and not terminated is the current one, and the
    browser delivers no event of any other; a time-out and a stop replace
    the current worker by a new one, after which a message or an error of
    the replaced worker changes nothing. *)
Theorem C1_stale_worker_is_terminated :
  (forall m, lookup "generation" (wire_to_worker m) = JUndefined)
  /\ (forall m, lookup "generation" (wire_from_worker m) = JUndefined)
  /\ (forall w ok output s,
        let s' := Page.worker_onmessage w (Result ok output) s in
        Page.output s' = output
        /\ Page.outcomes s' = Page.outcomes s ++ [Page.GotResult w output])
  /\ (forall evs,
        let s := Page.run_events evs Page.initial in
        Page.live s = match Page.worker s with Some w => [w] | None => [] end)
  /\ (forall evs w msg message,
        let s := Page.run_events evs Page.initial in
        Page.worker s <> Some w ->
        Page.handle (Page.WorkerMessage w msg) s = s
        /\ Page.handle (Page.WorkerError w message) s = s)
  /\ (forall evs w id timeoutMs msg,
        let s := Page.run_events evs Page.initial in
        Page.worker s = Some w ->
        Page.find_timer id (Page.pending s) = Some timeoutMs ->
        let s' := Page.handle (Page.TimerFires id) s in
        Page.worker s' <> Some w
        /\ Page.handle (Page.WorkerMessage w msg) s' = s')
  /\ (forall evs w msg,
        let s := Page.run_events evs Page.initial in
        Page.worker s = Some w ->
        Page.running s = true ->
        let s' := Page.stopCode s in
        Page.worker s' <> Some w
        /\ Page.handle (Page.WorkerMessage w msg) s' = s').
Proof.
  split; [intros [|code [z|]]; reflexivity|].
  split; [intros [|error|ok output]; reflexivity|].
  split.
  { intros w ok output s. simpl. unfold Page.finishRun.
    destruct (Page.runTimeout _); simpl; split; reflexivity. }
  split; [intros evs; apply one_worker_reachable|].
  split.
  { intros evs w msg message s Hw.
    pose proof (one_worker_reachable evs) as Hinv. fold s in Hinv.
    clearbody s. unfold Page.handle.
    rewrite (not_current_not_live s w Hinv Hw). now split. }
  split.
  { intros evs w id timeoutMs msg s Hw Hid s'.
    pose proof (one_worker_reachable evs) as Hinv. fold s in Hinv.
    assert (Hinv' : one_worker s') by now apply handle_workers.
    assert (Hcur : Page.worker s' = Some (Page.created s)).
    { unfold s', Page.handle. rewrite Hid.
      rewrite timeout_callback_replaces; [reflexivity|].
      now apply (one_worker_same s). }
    assert (Hne : Page.worker s' <> Some w).
    { rewrite Hcur. intros E. inversion E.
      destruct Hinv as [_ Hrank]. specialize (Hrank w Hw). lia. }
    clearbody s'. split; [exact Hne|].
    unfold Page.handle. now rewrite (not_current_not_live s' w Hinv' Hne). }
  { intros evs w msg s Hw Hrun s'.
    pose proof (one_worker_reachable evs) as Hinv. fold s in Hinv.
    assert (Hinv' : one_worker s') by now apply stopCode_workers.
    assert (Hne : Page.worker s' <> Some w).
    { unfold s'. rewrite stopCode_replaces by assumption. intros E.
      inversion E. destruct Hinv as [_ Hrank]. specialize (Hrank w Hw). lia. }
    clearbody s'. split; [exact Hne|].
    unfold Page.handle. now rewrite (not_current_not_live s' w Hinv' Hne). }
Qed.

Lemma C1_witness :
  let s :=
    Page.run_events
      [Page.Load; Page.WorkerMessage 0 Ready; Page.ClickRun Example.print_1]
      Page.initial in
  let s' := Page.handle (Page.TimerFires 1) s in
  Page.worker s' <> Some 0%nat
  /\ Page.handle (Page.WorkerMessage 0 Example.result_1) s' = s'.
Proof.
  destruct C1_stale_worker_is_terminated as (_ & _ & _ & _ & _ & Htimer & _).
  apply (Htimer [Page.Load; Page.WorkerMessage 0 Ready;
                 Page.ClickRun Example.print_1] 0%nat 1%nat 3000
                Example.result_1); vm_compute; reflexivity.
Defined.

(** ** The status pill and the running flag *)

Lemma finishRun_flag (s : Page.Page) :
  Page.running (Page.finishRun s) = false
  /\ Page.pyStatus_class (Page.finishRun s) = Page.pyStatus_class s.
Proof.
  unfold Page.finishRun. simpl.
  destruct (Page.runTimeout s); split; reflexivity.
Qed.

Lemma killWorker_none (s : Page.Page) :
  Page.worker (Page.killWorker s) = None.
Proof.
  unfold Page.killWorker. destruct (Page.worker s) eqn:E; [reflexivity|exact E].
Qed.

Lemma ensureWorker_loading (s : Page.Page) :
  Page.worker s = None ->
  Page.pyStatus_class (snd (Page.ensureWorker s)) = Page.status_loading.
Proof.
  intros H. unfold Page.ensureWorker. rewrite H. reflexivity.
Qed.

Lemma restart_loading (s : Page.Page) :
  let s' := Page.finishRun (snd (Page.ensureWorker (Page.killWorker s))) in
  Page.running s' = false /\ Page.pyStatus_class s' = Page.status_loading.
Proof.
  cbv zeta.
  destruct (finishRun_flag (snd (Page.ensureWorker (Page.killWorker s))))
    as [Hflag Hclass].
  split; [exact Hflag|].
  rewrite Hclass. apply ensureWorker_loading, killWorker_none.
Qed.

(** C9 as the specification states it.  While the run of [print(1)] is
    outstanding the pill still says ready: there is no running status.
    Reading the [running] flag as the Running state does not give the
    declared machine either: an error of the worker during the run goes
    from Running to Error, and a click after a time-out, while the
    replacement worker loads, goes from Loading to Running. *)
Lemma C9_pill_has_no_running :
  let busy := Page.handle (Page.ClickRun Example.print_1) Example.ready_page in
  let crashed := Page.handle (Page.WorkerError 0 (js "boom")) busy in
  let restarted := Page.handle (Page.TimerFires 1) busy in
  let again := Page.handle (Page.ClickRun Example.print_1) restarted in
  (pill_state Example.ready_page = SReady
   /\ Page.running busy = true
   /\ pill_state busy = SReady
   /\ Page.pyStatus_text busy = js "Python ready")
  /\ (session_state busy = SRunning
      /\ session_state crashed = SError
      /\ declared SRunning SError = false)
  /\ (session_state restarted = SLoading
      /\ session_state again = SRunning
      /\ declared SLoading SRunning = false).
Proof. vm_compute. repeat split. Qed.

(** C9, amended.  The pill has the three values loading, ready and error
    and no running value; that a run is outstanding is kept in the
    [running] flag.  An accepted submit sets the flag and leaves the pill
    as it is (loading, if the worker had to be constructed); a result
    clears the flag and leaves the pill as it is; a time-out and a stop
    clear the flag and leave the pill at loading, which the [ready] of the
    new worker turns to ready; a [fatal] turns the pill to error; an error
    of the worker clears the flag and turns the pill to error. *)
Theorem C9_pill_and_flag (s : Page.Page) :
  pill_state s <> SRunning
  /\ (forall i,
        truthy (trim (Page.codeEditor_value i)) = true ->
        Page.running (Page.runCode i s) = true
        /\ Page.pyStatus_class (Page.runCode i s)
           = match Page.worker s with
             | Some _ => Page.pyStatus_class s
             | None => Page.status_loading
             end)
  /\ (forall w ok output,
        let s' := Page.worker_onmessage w (Result ok output) s in
        Page.running s' = false
        /\ Page.pyStatus_class s' = Page.pyStatus_class s)
  /\ (forall timeoutMs,
        let s' := Page.timeout_callback timeoutMs s in
        Page.running s' = false
        /\ Page.pyStatus_class s' = Page.status_loading)
  /\ (Page.running s = true ->
      Page.running (Page.stopCode s) = false
      /\ Page.pyStatus_class (Page.stopCode s) = Page.status_loading)
  /\ (Page.running s = false -> Page.stopCode s = s)
  /\ (forall w,
        let s' := Page.worker_onmessage w Ready s in
        Page.running s' = Page.running s
        /\ Page.pyStatus_class s' = Page.status_ready)
  /\ (forall w error,
        let s' := Page.worker_onmessage w (Fatal error) s in
        Page.running s' = Page.running s
        /\ Page.pyStatus_class s' = Page.status_error)
  /\ (forall w message,
        let s' := Page.worker_onerror w message s in
        Page.running s' = false
        /\ Page.pyStatus_class s' = Page.status_error).
Proof.
  split.
  { unfold pill_state. destruct (Page.pyStatus_class s); discriminate. }
  split.
  { intros i Hcode. unfold Page.runCode, Page.ensureWorker.
    rewrite Hcode. destruct (Page.worker s); simpl; split; reflexivity. }
  split.
  { intros w ok output. apply (finishRun_flag s). }
  split.
  { intros timeoutMs. unfold Page.timeout_callback. apply restart_loading. }
  split.
  { intros Hrun. unfold Page.stopCode. rewrite Hrun. simpl negb. cbv iota.
    apply restart_loading. }
  split.
  { intros Hrun. unfold Page.stopCode. now rewrite Hrun. }
  split; [intros w; split; reflexivity|].
  split; [intros w error; split; reflexivity|].
  intros w message. unfold Page.worker_onerror. simpl.
  split; [apply (finishRun_flag s) | reflexivity].
Qed.

Lemma C9_witness :
  truthy (trim (Page.codeEditor_value Example.print_1)) = true
  /\ Page.running (Page.runCode Example.print_1 Example.ready_page) = true.
Proof.
  split; [reflexivity|].
  destruct (C9_pill_and_flag Example.ready_page) as (_ & Hrun & _).
  apply (Hrun Example.print_1). reflexivity.
Defined.

(** ** One outcome per run, when runs come one at a time *)

(** What the steps of the handlers do to the fields that the property
    reads. *)
Lemma finishRun_effect (s : Page.Page) :
  let s' := Page.finishRun s in
  Page.running s' = false
  /\ Page.runTimeout s' = None
  /\ Page.pending s'
     = match Page.runTimeout s with
       | Some id =>
           filter (fun t => negb (Nat.eqb (fst t) id)) (Page.pending s)
       | None => Page.pending s
       end
  /\ Page.posted s' = Page.posted s
  /\ Page.outcomes s' = Page.outcomes s.
Proof.
  unfold Page.finishRun. simpl.
  destruct (Page.runTimeout s) eqn:E; simpl; repeat split; exact E.
Qed.

Lemma restart_effect (s : Page.Page) :
  let s' := snd (Page.ensureWorker (Page.killWorker s)) in
  Page.running s' = Page.running s
  /\ Page.runTimeout s' = Page.runTimeout s
  /\ Page.pending s' = Page.pending s
  /\ Page.posted s' = Page.posted s ++ [(Page.created s, Init)]
  /\ Page.outcomes s' = Page.outcomes s
  /\ Page.created s' = S (Page.created s).
Proof.
  cbv zeta. unfold Page.ensureWorker. rewrite killWorker_none.
  unfold Page.killWorker. destruct (Page.worker s); simpl; repeat split.
Qed.

Lemma ensureWorker_effect (s : Page.Page) :
  let s' := snd (Page.ensureWorker s) in
  Page.running s' = Page.running s
  /\ Page.runTimeout s' = Page.runTimeout s
  /\ Page.pending s' = Page.pending s
  /\ Page.next_timer s' = Page.next_timer s
  /\ Page.outcomes s' = Page.outcomes s
  /\ (Page.posted s' = Page.posted s
      \/ Page.posted s' = Page.posted s ++ [(Page.created s, Init)])
  /\ (Page.created s <= Page.created s')%nat.
Proof.
  cbv zeta. unfold Page.ensureWorker.
  destruct (Page.worker s); simpl; repeat split; auto.
Qed.

Lemma ensureWorker_current (s : Page.Page) :
  Page.worker (snd (Page.ensureWorker s)) = Some (fst (Page.ensureWorker s)).
Proof.
  unfold Page.ensureWorker.
  destruct (Page.worker s) eqn:E; simpl; [exact E | reflexivity].
Qed.

Lemma runCode_effect (i : Page.Inputs) (s : Page.Page) :
  truthy (trim (Page.codeEditor_value i)) = true ->
  let s1 := snd (Page.ensureWorker s) in
  let w := fst (Page.ensureWorker s) in
  let s' := Page.runCode i s in
  Page.running s' = true
  /\ (exists timeoutMs,
         Page.runTimeout s' = Some (Page.next_timer s)
         /\ Page.pending s'
            = Page.pending s ++ [(Page.next_timer s, timeoutMs)])
  /\ (exists capBytes,
         Page.posted s'
         = Page.posted s1 ++ [(w, Run (Page.codeEditor_value i) capBytes)])
  /\ Page.outcomes s' = Page.outcomes s
  /\ Page.worker s' = Some w
  /\ Page.created s' = Page.created s1.
Proof.
  intros Hcode. cbv zeta. unfold Page.runCode. rewrite Hcode. simpl negb.
  cbv iota.
  destruct (ensureWorker_effect s) as (_ & _ & Hp & Hn & Ho & _).
  pose proof (ensureWorker_current s) as Hcur.
  destruct (Page.ensureWorker s) as [w s1]. simpl in *.
  rewrite Hp, Hn, Ho. repeat split; eauto.
Qed.

Lemma runs_to_post (s s' : Page.Page) (w0 : nat) (m : ToWorker) :
  Page.posted s' = Page.posted s ++ [(w0, m)] ->
  forall w,
    Page.runs_to w s'
    = (Page.runs_to w s
       + match m with
         | Run _ _ => if Nat.eqb w0 w then 1 else 0
         | Init => 0
         end)%nat.
Proof.
  intros H w. unfold Page.runs_to. rewrite H, filter_app, length_app.
  f_equal. simpl. destruct m; [reflexivity|].
  destruct (Nat.eqb w0 w); reflexivity.
Qed.

Lemma runs_posted_post (s s' : Page.Page) (w0 : nat) (m : ToWorker) :
  Page.posted s' = Page.posted s ++ [(w0, m)] ->
  List.length (Page.runs_posted s')
  = (List.length (Page.runs_posted s)
     + match m with Run _ _ => 1 | Init => 0 end)%nat.
Proof.
  intros H. unfold Page.runs_posted. rewrite H, filter_app, length_app.
  f_equal. simpl. destruct m; reflexivity.
Qed.

Lemma results_from_report (s s' : Page.Page) (o : Page.Outcome) :
  Page.outcomes s' = Page.outcomes s ++ [o] ->
  forall w,
    Page.results_from w s'
    = (Page.results_from w s
       + match o with
         | Page.GotResult w' _ => if Nat.eqb w' w then 1 else 0
         | _ => 0
         end)%nat.
Proof.
  intros H w. unfold Page.results_from. rewrite H, filter_app, length_app.
  f_equal. simpl. destruct o as [w' output| | |]; try reflexivity.
  destruct (Nat.eqb w' w); reflexivity.
Qed.

Lemma results_from_same (s s' : Page.Page) :
  Page.outcomes s' = Page.outcomes s ->
  forall w, Page.results_from w s' = Page.results_from w s.
Proof. intros H w. unfold Page.results_from. now rewrite H. Qed.

Lemma runs_to_same (s s' : Page.Page) :
  Page.posted s' = Page.posted s ->
  forall w, Page.runs_to w s' = Page.runs_to w s.
Proof. intros H w. unfold Page.runs_to. now rewrite H. Qed.

(** A step that leaves the fields of the property alone keeps it. *)
Lemma settled_cosmetic (s s' : Page.Page) :
  Page.worker s' = Page.worker s ->
  Page.live s' = Page.live s ->
  Page.created s' = Page.created s ->
  Page.running s' = Page.running s ->
  Page.runTimeout s' = Page.runTimeout s ->
  Page.pending s' = Page.pending s ->
  Page.posted s' = Page.posted s ->
  Page.outcomes s' = Page.outcomes s ->
  settled s -> settled s'.
Proof.
  intros Hw Hl Hc Hr Ht Hp Hpo Ho (H1 & H2 & H3 & H4 & H5 & H6).
  unfold settled, due, Page.runs_posted in *.
  rewrite Hw, Hc, Hr, Ht, Hp, Hpo, Ho.
  split; [now apply (one_worker_same s)|].
  split; [exact H2|]. split; [exact H3|].
  split.
  { intros w E. rewrite (runs_to_same s s' Hpo), (results_from_same s s' Ho).
    now apply H4. }
  split; [exact H5|].
  intros w E. rewrite (runs_to_same s s' Hpo), (results_from_same s s' Ho).
  now apply H6.
Qed.

Lemma settled_initial : settled Page.initial.
Proof.
  unfold settled. split; [exact one_worker_initial|].
  simpl. repeat split; try reflexivity; discriminate.
Qed.

Lemma filter_own_timer (id : nat) (timeoutMs : Z) :
  filter (fun t : nat * Z => negb (Nat.eqb (fst t) id)) [(id, timeoutMs)] = [].
Proof. simpl. now rewrite Nat.eqb_refl. Qed.

Lemma live_is_current (s : Page.Page) (w : nat) :
  one_worker s -> Page.is_live w s = true -> Page.worker s = Some w.
Proof.
  intros [Hlive _]. unfold Page.is_live. rewrite Hlive.
  destruct (Page.worker s) as [w0|]; simpl; [|discriminate].
  destruct (Nat.eqb_spec w w0); [now subst | discriminate].
Qed.

Lemma settled_ensureWorker (s : Page.Page) :
  settled s -> settled (snd (Page.ensureWorker s)).
Proof.
  intros Hs. pose proof Hs as (H1 & H2 & H3 & H4 & H5 & H6).
  destruct (one_worker_ensureWorker s H1) as [Hone _].
  revert Hone. unfold Page.ensureWorker.
  destruct (Page.worker s) as [w|] eqn:Hw; simpl; intros Hone; [exact Hs|].
  specialize (H5 eq_refl).
  set (s' := Page.postMessage _ _ _) in *.
  assert (Hpo : Page.posted s' = Page.posted s ++ [(Page.created s, Init)])
    by reflexivity.
  assert (Ho : Page.outcomes s' = Page.outcomes s) by reflexivity.
  unfold settled, due.
  change (Page.running s') with (Page.running s).
  change (Page.runTimeout s') with (Page.runTimeout s).
  change (Page.pending s') with (Page.pending s).
  change (Page.worker s') with (Some (Page.created s)).
  change (Page.created s') with (S (Page.created s)).
  rewrite Ho, (runs_posted_post s s' _ _ Hpo), Nat.add_0_r.
  split; [exact Hone|]. split; [exact H2|]. split; [exact H3|].
  split.
  { intros w E. inversion E; subst w.
    rewrite (runs_to_post s s' _ _ Hpo), (results_from_same s s' Ho).
    destruct (H6 (Page.created s)) as [-> ->]; [lia|].
    rewrite H5. reflexivity. }
  split; [discriminate|].
  intros w Hle.
  rewrite (runs_to_post s s' _ _ Hpo), (results_from_same s s' Ho).
  destruct (H6 w) as [-> ->]; [lia|]. split; reflexivity.
Qed.

(** The restart shared by the time-out and the stop button, after the
    outcome [o] has been reported: [t] is the page at that point. *)
Lemma settled_restart (s t : Page.Page) (o : Page.Outcome) :
  settled s ->
  Page.running s = true ->
  Page.worker t = Page.worker s ->
  Page.live t = Page.live s ->
  Page.created t = Page.created s ->
  Page.runTimeout t = Page.runTimeout s ->
  Page.pending t = Page.pending s \/ Page.pending t = [] ->
  Page.posted t = Page.posted s ->
  Page.outcomes t = Page.outcomes s ++ [o] ->
  o = Page.TimedOut \/ o = Page.Stopped ->
  settled (Page.finishRun (snd (Page.ensureWorker (Page.killWorker t)))).
Proof.
  intros (H1 & H2 & H3 & H4 & H5 & H6) Hrun Hw Hl Hc Ht Hp Hpo Ho Hkind.
  unfold due in *. rewrite Hrun in *.
  destruct H3 as (id & timeoutMs & Hid & Hpend).
  assert (Hone : one_worker t) by now apply (one_worker_same s).
  destruct (one_worker_restart t Hone) as [Hone' Hcur].
  destruct (restart_effect t) as (_ & Rt & Rp & Rpo & Ro & Rc).
  set (r := snd (Page.ensureWorker (Page.killWorker t))) in *.
  destruct (finishRun_effect r) as (Fr & Ft & Fp & Fpo & Fo).
  destruct (finishRun_workers r) as (Fw & _ & Fc).
  set (f := Page.finishRun r) in *.
  assert (Hpost : Page.posted f = Page.posted s ++ [(Page.created t, Init)]).
  { now rewrite Fpo, Rpo, Hpo. }
  assert (Hout : Page.outcomes f = Page.outcomes s ++ [o]).
  { now rewrite Fo, Ro, Ho. }
  assert (Hres : forall w, Page.results_from w f = Page.results_from w s).
  { intros w. rewrite (results_from_report s f o Hout).
    destruct Hkind; subst o; lia. }
  assert (Hruns : forall w, Page.runs_to w f = Page.runs_to w s).
  { intros w. rewrite (runs_to_post s f _ _ Hpost). lia. }
  unfold settled, due. rewrite Fr, Ft.
  split; [now apply one_worker_finishRun|].
  split.
  { rewrite Hout, length_app, (runs_posted_post s f _ _ Hpost). simpl. lia. }
  split.
  { split; [reflexivity|]. rewrite Fp, Rt, Ht, Hid, Rp.
    destruct Hp as [-> | ->]; [|reflexivity].
    rewrite Hpend. apply filter_own_timer. }
  split.
  { intros w E. rewrite Fw, Hcur in E. inversion E; subst w.
    rewrite Hruns, Hres, Hc. destruct (H6 (Page.created s)) as [-> ->]; lia. }
  split.
  { rewrite Fw, Hcur. discriminate. }
  intros w Hle. rewrite Fc, Rc, Hc in Hle.
  rewrite Hruns, Hres. apply H6. lia.
Qed.

Lemma settled_runCode (i : Page.Inputs) (s : Page.Page) :
  settled s -> Page.running s = false -> settled (Page.runCode i s).
Proof.
  intros Hs Hrun.
  destruct (truthy (trim (Page.codeEditor_value i))) eqn:Hcode.
  2:{ unfold Page.runCode. rewrite Hcode. simpl negb. cbv iota.
      now apply (settled_cosmetic s). }
  pose proof (settled_ensureWorker s Hs) as (E1 & E2 & E3 & E4 & E5 & E6).
  destruct Hs as (H1 & _ & H3 & _).
  rewrite Hrun in H3. destruct H3 as [_ Hpend].
  destruct (ensureWorker_effect s) as (Er & _ & _ & _ & Eo & _).
  destruct (runCode_effect i s Hcode)
    as (Rr & (timeoutMs & Rt & Rp) & (capBytes & Rpo) & Ro & Rw & Rc).
  pose proof (ensureWorker_current s) as Hcur.
  set (s1 := snd (Page.ensureWorker s)) in *.
  set (w := fst (Page.ensureWorker s)) in *.
  set (s' := Page.runCode i s) in *.
  unfold due in *. rewrite Er, Hrun in *.
  assert (Hout : Page.outcomes s' = Page.outcomes s1) by now rewrite Ro, Eo.
  assert (Hrank : (w < Page.created s1)%nat).
  { destruct E1 as [_ Hrank]. now apply Hrank. }
  unfold settled, due. rewrite Rr.
  split; [now apply runCode_workers|].
  split.
  { rewrite Hout, (runs_posted_post s1 s' _ _ Rpo). lia. }
  split.
  { exists (Page.next_timer s), timeoutMs. rewrite Rt, Rp, Hpend.
    split; reflexivity. }
  split.
  { intros w0 E. rewrite Rw in E. inversion E; subst w0.
    rewrite (runs_to_post s1 s' _ _ Rpo), (results_from_same s1 s' Hout).
    rewrite Nat.eqb_refl. rewrite (E4 w Hcur). lia. }
  split.
  { rewrite Rw. discriminate. }
  intros w0 Hle. rewrite Rc in Hle.
  rewrite (runs_to_post s1 s' _ _ Rpo), (results_from_same s1 s' Hout).
  destruct (Nat.eqb_spec w w0) as [->|_]; [lia|].
  destruct (E6 w0 Hle) as [-> ->]. split; reflexivity.
Qed.

Lemma settled_result (w : nat) (ok : bool) (output : jsstring) (s : Page.Page) :
  settled s ->
  Page.worker s = Some w ->
  (Page.results_from w s < Page.runs_to w s)%nat ->
  settled (Page.worker_onmessage w (Result ok output) s).
Proof.
  intros (H1 & H2 & H3 & H4 & H5 & H6) Hw Hdue.
  pose proof (H4 w Hw) as Hacc. unfold due in *.
  destruct (Page.running s) eqn:Hrun; [|lia].
  destruct H3 as (id & timeoutMs & Hid & Hpend).
  destruct (finishRun_effect s) as (Fr & Ft & Fp & Fpo & Fo).
  destruct (finishRun_workers s) as (Fw & Fl & Fc).
  set (s' := Page.worker_onmessage w (Result ok output) s).
  assert (Sr : Page.running s' = false) by exact Fr.
  assert (St : Page.runTimeout s' = None) by exact Ft.
  assert (Sp : Page.pending s' = []).
  { change (Page.pending s') with (Page.pending (Page.finishRun s)).
    rewrite Fp, Hid, Hpend. apply filter_own_timer. }
  assert (Spo : Page.posted s' = Page.posted s) by exact Fpo.
  assert (So : Page.outcomes s'
               = Page.outcomes s ++ [Page.GotResult w output]).
  { change (Page.outcomes s')
      with (Page.outcomes (Page.finishRun s) ++ [Page.GotResult w output]).
    now rewrite Fo. }
  assert (Sw : Page.worker s' = Page.worker s) by exact Fw.
  assert (Sc : Page.created s' = Page.created s) by exact Fc.
  assert (Hrank : (w < Page.created s)%nat).
  { destruct H1 as [_ Hrank]. now apply Hrank. }
  unfold settled, due. rewrite Sr, St, Sp, Sw, Sc.
  split.
  { apply (one_worker_same (Page.finishRun s)); try reflexivity.
    now apply one_worker_finishRun. }
  split.
  { rewrite So, length_app. unfold Page.runs_posted in *. rewrite Spo.
    simpl. lia. }
  split; [split; reflexivity|].
  split.
  { intros w0 E. rewrite Hw in E. inversion E; subst w0.
    rewrite (runs_to_same s s' Spo), (results_from_report s s' _ So).
    rewrite Nat.eqb_refl. lia. }
  split.
  { rewrite Hw. discriminate. }
  intros w0 Hle.
  rewrite (runs_to_same s s' Spo), (results_from_report s s' _ So).
  destruct (Nat.eqb_spec w w0) as [->|_]; [lia|].
  destruct (H6 w0 Hle) as [-> ->]. split; reflexivity.
Qed.

Lemma settled_handle (e : Page.Event) (s : Page.Page) :
  settled s -> Page.allowed e s -> settled (Page.handle e s).
Proof.
  intros Hs Hok. pose proof Hs as (H1 & H2 & H3 & H4 & H5 & H6).
  destruct e as [|i|i| |id|w msg|w message]; simpl in Hok; unfold Page.handle.
  - unfold Page.boot. apply settled_ensureWorker.
    now apply (settled_cosmetic s).
  - destruct (Page.runBtn_disabled s); [exact Hs|now apply settled_runCode].
  - now apply settled_runCode.
  - destruct (Page.stopBtn_disabled s); [exact Hs|].
    unfold Page.stopCode.
    destruct (Page.running s) eqn:Hrun; simpl negb; cbv iota; [|exact Hs].
    apply (settled_restart s _ Page.Stopped Hs Hrun); auto.
  - destruct (Page.find_timer id (Page.pending s)) as [timeoutMs|] eqn:Hid;
      [|exact Hs].
    destruct (Page.running s) eqn:Hrun.
    + destruct H3 as (id0 & ms0 & Hrt & Hpend).
      assert (id = id0).
      { unfold Page.find_timer in Hid. rewrite Hpend in Hid. simpl in Hid.
        destruct (Nat.eqb_spec id0 id); [now subst | discriminate]. }
      subst id0. unfold Page.timeout_callback.
      apply (settled_restart s _ Page.TimedOut Hs Hrun); auto.
      right. unfold Page.expire. simpl. rewrite Hpend.
      apply filter_own_timer.
    + destruct H3 as [_ Hpend]. unfold Page.find_timer in Hid.
      rewrite Hpend in Hid. discriminate.
  - destruct (Page.is_live w s) eqn:Hlive; [|exact Hs].
    apply (live_is_current s w H1) in Hlive.
    destruct msg as [|error|ok output].
    + now apply (settled_cosmetic s).
    + now apply (settled_cosmetic s).
    + now apply settled_result.
  - contradiction.
Qed.

(** With runs one at a time, in every state reached, the outcomes
    reported are as many as the runs posted, less the run that is
    outstanding; and while a run is outstanding its time-out, and no
    other, is pending. *)
Lemma orderly_settled (evs : list Page.Event) :
  forall s, settled s -> Page.orderly evs s -> settled (Page.run_events evs s).
Proof.
  induction evs as [|e evs IH]; intros s Hs Hg; simpl.
  - exact Hs.
  - destruct Hg as [Hok Hrest]. apply IH; [|exact Hrest].
    now apply settled_handle.
Qed.

(** X21.  When runs come one at a time (no run submitted while one is
    outstanding, each result answering a run not yet answered, no crash),
    the outcomes reported are exactly as many as the runs posted, less
    the one outstanding; while a run is outstanding its time-out and no
    other is pending, and when none is, no time-out is pending. *)
Theorem one_outcome_per_orderly_run (evs : list Page.Event) :
  Page.orderly evs Page.initial ->
  let s := Page.run_events evs Page.initial in
  (List.length (Page.outcomes s) + (if Page.running s then 1 else 0)
   = List.length (Page.runs_posted s))%nat
  /\ (Page.running s = true ->
      exists id timeoutMs,
        Page.runTimeout s = Some id /\ Page.pending s = [(id, timeoutMs)])
  /\ (Page.running s = false -> Page.pending s = []).
Proof.
  intros Hg s.
  destruct (orderly_settled evs Page.initial settled_initial Hg)
    as (_ & H2 & H3 & _).
  fold s in H2, H3. clearbody s. unfold due in H2.
  split; [exact H2|].
  split; intros Hrun; rewrite Hrun in H3; [exact H3 | apply H3].
Qed.

(** A result, a time-out and a stop, each for a run of its own. *)
Lemma orderly_three_runs :
  let evs :=
    [Page.Load; Page.WorkerMessage 0 Ready;
     Page.ClickRun Example.print_1; Page.WorkerMessage 0 Example.result_1;
     Page.CtrlEnter Example.print_1; Page.TimerFires 2;
     Page.WorkerMessage 1 Ready;
     Page.ClickRun Example.print_1; Page.ClickStop] in
  Page.orderly evs Page.initial
  /\ Page.outcomes (Page.run_events evs Page.initial)
     = [Page.GotResult 0 (js "(no output)"); Page.TimedOut; Page.Stopped].
Proof.
  split.
  - vm_compute. repeat split; auto.
  - vm_compute. reflexivity.
Qed.

(** ** Tracking parameters *)

Lemma jsstring_eqb_eq (a b : jsstring) : jsstring_eqb a b = true <-> a = b.
Proof.
  unfold jsstring_eqb. destruct (list_eq_dec N.eq_dec a b); split;
    congruence.
Qed.

Lemma jsstring_eqb_refl (a : jsstring) : jsstring_eqb a a = true.
Proof. now apply jsstring_eqb_eq. Qed.

Lemma filter_twice {A : Type} (f g : A -> bool) (l : list A) :
  filter f (filter g l) = filter (fun x => g x && f x) l.
Proof.
  induction l as [|x l IH]; simpl; [reflexivity|].
  destruct (g x); simpl; [destruct (f x)|]; now rewrite IH.
Qed.

Lemma filter_all {A : Type} (f : A -> bool) (l : list A) :
  (forall x, In x l -> f x = true) -> filter f l = l.
Proof.
  induction l as [|x l IH]; intros H; simpl; [reflexivity|].
  rewrite (H x) by now left. f_equal. apply IH. intros y Hy. apply H.
  now right.
Qed.

(** The loop, whatever the list of keys it walks: a pair goes when its
    name is a tracking one and is among the keys. *)
Lemma strip_loop_filter (ks : list jsstring) :
  forall params changed,
    Tracking.strip_loop ks params changed
    = (filter (fun p => negb (Tracking.is_tracking (fst p)
                              && existsb (jsstring_eqb (fst p)) ks)) params,
       changed || existsb Tracking.is_tracking ks).
Proof.
  induction ks as [|k rest IH]; intros params changed; simpl.
  - rewrite orb_false_r. f_equal. symmetry. apply filter_all.
    intros p _. now rewrite andb_false_r.
  - destruct (Tracking.is_tracking k) eqn:Hk.
    + rewrite IH. unfold Tracking.delete. rewrite filter_twice.
      simpl. rewrite orb_true_r. f_equal.
      apply filter_ext. intros p.
      destruct (jsstring_eqb (fst p) k) eqn:E; simpl.
      * apply jsstring_eqb_eq in E. rewrite E, Hk. reflexivity.
      * reflexivity.
    + rewrite IH. simpl. f_equal.
      apply filter_ext. intros p.
      destruct (jsstring_eqb (fst p) k) eqn:E; simpl; [|reflexivity].
      apply jsstring_eqb_eq in E. rewrite E, Hk. reflexivity.
Qed.

Lemma own_key_listed (params : Tracking.Params) (p : jsstring * jsstring) :
  In p params ->
  existsb (jsstring_eqb (fst p)) (Tracking.keys params) = true.
Proof.
  intros H. apply existsb_exists. exists (fst p). split.
  - unfold Tracking.keys. now apply in_map.
  - apply jsstring_eqb_refl.
Qed.

Lemma filter_listed (l : Tracking.Params) (ks : list jsstring) :
  (forall q, In q l -> existsb (jsstring_eqb (fst q)) ks = true) ->
  filter (fun p => negb (Tracking.is_tracking (fst p)
                         && existsb (jsstring_eqb (fst p)) ks)) l
  = filter (fun p => negb (Tracking.is_tracking (fst p))) l.
Proof.
  induction l as [|q l IH]; intros H; simpl; [reflexivity|].
  rewrite (H q) by now left. rewrite andb_true_r.
  rewrite IH; [reflexivity|]. intros r Hr. apply H. now right.
Qed.

Lemma stripTrackingParams_eq (params : Tracking.Params) :
  Tracking.stripTrackingParams params
  = if existsb Tracking.is_tracking (Tracking.keys params)
    then Some (filter (fun p => negb (Tracking.is_tracking (fst p))) params)
    else None.
Proof.
  unfold Tracking.stripTrackingParams. rewrite strip_loop_filter. simpl.
  destruct (existsb Tracking.is_tracking (Tracking.keys params));
    [|reflexivity].
  f_equal. apply filter_listed. apply own_key_listed.
Qed.

(** A URL with two tracking parameters around a repeated one. *)
Lemma strip_example :
  Tracking.stripTrackingParams
    [(js "utm_source", js "mail"); (js "q", js "1"); (js "fbclid", js "abc");
     (js "q", js "2")]
  = Some [(js "q", js "1"); (js "q", js "2")].
Proof. reflexivity. Qed.

Lemma after_strip_filter (params : Tracking.Params) :
  Tracking.after_strip params
  = filter (fun p => negb (Tracking.is_tracking (fst p))) params.
Proof.
  unfold Tracking.after_strip. rewrite stripTrackingParams_eq.
  destruct (existsb Tracking.is_tracking (Tracking.keys params)) eqn:E;
    [reflexivity|].
  symmetry. apply filter_all. intros p Hp.
  destruct (Tracking.is_tracking (fst p)) eqn:Hk; [|reflexivity].
  assert (existsb Tracking.is_tracking (Tracking.keys params) = true).
  { apply existsb_exists. exists (fst p). split; [|exact Hk].
    unfold Tracking.keys. now apply in_map. }
  congruence.
Qed.

(** X1.  Stripping removes exactly the parameters named [fbclid] or
    [gclid] or whose name starts with [utm_], every occurrence of them,
    and keeps all the others, in order, with their values. *)
Theorem strip_keeps_exactly_the_others (params : Tracking.Params) :
  Tracking.after_strip params
  = filter (fun p => negb (Tracking.is_tracking (fst p))) params.
Proof. apply after_strip_filter. Qed.

(** X2.  The URL is rewritten ([history.replaceState]) exactly when some
    parameter is a tracking one; on a URL that has been stripped the
    function finds nothing more to do. *)
Theorem strip_rewrites_only_when_needed (params : Tracking.Params) :
  (Tracking.stripTrackingParams params = None
   <-> forall p, In p params -> Tracking.is_tracking (fst p) = false)
  /\ Tracking.stripTrackingParams (Tracking.after_strip params) = None.
Proof.
  assert (Hnone : forall l : Tracking.Params,
             Tracking.stripTrackingParams l = None
             <-> forall p, In p l -> Tracking.is_tracking (fst p) = false).
  { intros l. rewrite stripTrackingParams_eq.
    destruct (existsb Tracking.is_tracking (Tracking.keys l)) eqn:E.
    - split; [discriminate|]. intros H. exfalso.
      apply existsb_exists in E. destruct E as (k & Hin & Hk).
      unfold Tracking.keys in Hin. apply in_map_iff in Hin.
      destruct Hin as (p & <- & Hp). rewrite (H p Hp) in Hk. discriminate.
    - split; [|reflexivity]. intros _ p Hp.
      destruct (Tracking.is_tracking (fst p)) eqn:Hk; [|reflexivity].
      assert (existsb Tracking.is_tracking (Tracking.keys l) = true).
      { apply existsb_exists. exists (fst p). split; [|exact Hk].
        unfold Tracking.keys. now apply in_map. }
      congruence. }
  split; [apply Hnone|].
  apply Hnone. intros p Hp. rewrite after_strip_filter in Hp.
  apply filter_In in Hp. destruct Hp as [_ Hp].
  now apply negb_true_iff in Hp.
Qed.

(** ** The keys of the editor *)

Lemma slice_suffix (s : jsstring) (n : Z) :
  0 <= n <= len s -> slice s n (len s) = skipn (Z.to_nat n) s.
Proof.
  intros [H0 Hn]. unfold slice.
  destruct (Z.ltb_spec n 0); [lia|].
  destruct (Z.ltb_spec (len s) 0); [lia|].
  rewrite !Z.min_l by lia.
  apply firstn_all2. rewrite length_skipn. unfold len in *. lia.
Qed.

Lemma firstn_exact {A : Type} (l l' : list A) (n : nat) :
  List.length l = n -> firstn n (l ++ l') = l.
Proof.
  intros <-. rewrite firstn_app, Nat.sub_diag, firstn_all. simpl.
  apply app_nil_r.
Qed.

Lemma skipn_exact {A : Type} (l l' : list A) (n : nat) :
  List.length l = n -> skipn n (l ++ l') = l'.
Proof.
  intros <-. rewrite skipn_app, Nat.sub_diag, skipn_all. reflexivity.
Qed.

Lemma indent_effect (e : Keys.Editor) :
  Keys.selection_ok e ->
  let v := Keys.value e in
  let start := Keys.selectionStart e in
  let stop := Keys.selectionEnd e in
  Keys.value (Keys.indent e)
  = firstn (Z.to_nat start) v ++ js "    " ++ skipn (Z.to_nat stop) v
  /\ len (Keys.value (Keys.indent e)) = len v - (stop - start) + 4
  /\ Keys.selectionStart (Keys.indent e) = start + 4
  /\ Keys.selectionEnd (Keys.indent e) = start + 4
  /\ Keys.selection_ok (Keys.indent e).
Proof.
  intros (H0 & Hse & Hel) v start stop.
  fold v start stop in H0, Hse, Hel.
  assert (Hv : Keys.value (Keys.indent e)
               = firstn (Z.to_nat start) v ++ js "    "
                 ++ skipn (Z.to_nat stop) v).
  { unfold Keys.indent. cbn [Keys.value]. fold v start stop.
    rewrite slice_prefix by lia. rewrite slice_suffix by lia. reflexivity. }
  assert (Hlen : len (Keys.value (Keys.indent e))
                 = len v - (stop - start) + 4).
  { rewrite Hv, !len_app, len_firstn by lia.
    unfold len at 3. rewrite length_skipn. change (len (js "    ")) with 4.
    unfold len in *. lia. }
  assert (Hcaret : Z.min (start + 4) (len (Keys.value (Keys.indent e)))
                   = start + 4) by lia.
  assert (Hs : Keys.selectionStart (Keys.indent e) = start + 4).
  { exact Hcaret. }
  assert (He : Keys.selectionEnd (Keys.indent e) = start + 4).
  { exact Hcaret. }
  repeat split; try assumption.
  - rewrite Hs. lia.
  - rewrite Hs, He. lia.
  - rewrite He, Hlen. lia.
Qed.

(** X3.  Tab replaces the selection by four spaces: the text before the
    selection and the text after it are kept as they are, the caret is
    placed right after the spaces with nothing selected, and the
    selection still lies within the text. *)
Theorem tab_replaces_selection (e : Keys.Editor) :
  Keys.selection_ok e ->
  let v := Keys.value e in
  let start := Keys.selectionStart e in
  let stop := Keys.selectionEnd e in
  Keys.value (Keys.indent e)
  = firstn (Z.to_nat start) v ++ js "    " ++ skipn (Z.to_nat stop) v
  /\ len (Keys.value (Keys.indent e)) = len v - (stop - start) + 4
  /\ Keys.selectionStart (Keys.indent e) = start + 4
  /\ Keys.selectionEnd (Keys.indent e) = start + 4
  /\ Keys.selection_ok (Keys.indent e).
Proof. apply indent_effect. Qed.

Lemma tab_witness :
  Keys.value (Keys.indent {| Keys.value := js "if x:pass";
                             Keys.selectionStart := 5;
                             Keys.selectionEnd := 5 |})
  = js "if x:    pass".
Proof.
  apply (tab_replaces_selection
           {| Keys.value := js "if x:pass"; Keys.selectionStart := 5;
              Keys.selectionEnd := 5 |}).
  unfold Keys.selection_ok. simpl. unfold len. simpl. lia.
Defined.

(** X4.  Pressing Tab [n] times at a caret inserts [4 * n] spaces there
    and leaves the caret after them; the rest of the text is untouched. *)
Theorem tabs_insert_spaces (n : nat) (e : Keys.Editor) :
  Keys.selection_ok e ->
  Keys.selectionStart e = Keys.selectionEnd e ->
  let v := Keys.value e in
  let p := Keys.selectionStart e in
  let e' := Nat.iter n Keys.indent e in
  Keys.value e'
  = firstn (Z.to_nat p) v ++ repeat 32%N (4 * n) ++ skipn (Z.to_nat p) v
  /\ Keys.selectionStart e' = p + 4 * Z.of_nat n
  /\ Keys.selectionEnd e' = p + 4 * Z.of_nat n
  /\ Keys.selection_ok e'.
Proof.
  intros Hok Hcaret v p.
  destruct Hok as (H0 & _ & Hel). fold v p in H0. rewrite <- Hcaret in Hel.
  fold v p in Hel.
  induction n as [|n IH].
  - cbv zeta. simpl Nat.iter. simpl repeat. fold v p.
    rewrite firstn_skipn, <- Hcaret. fold p.
    repeat split; try lia. unfold Keys.selection_ok. rewrite <- Hcaret.
    fold v p. lia.
  - cbv zeta in *. simpl Nat.iter.
    destruct IH as (Hv & Hs & He & Hok).
    set (e1 := Nat.iter n Keys.indent e) in *.
    destruct (indent_effect e1 Hok) as (Tv & _ & Ts & Te & Tok).
    cbv zeta in *. rewrite Hs in Ts, Te, Tv. rewrite He in Tv.
    assert (HA : List.length (firstn (Z.to_nat p) v) = Z.to_nat p).
    { rewrite length_firstn. unfold len in Hel. lia. }
    assert (HAR : List.length (firstn (Z.to_nat p) v ++ repeat 32%N (4 * n))
                  = Z.to_nat (p + 4 * Z.of_nat n)).
    { rewrite length_app, HA, repeat_length. lia. }
    split.
    + rewrite Tv, Hv.
      rewrite (app_assoc (firstn (Z.to_nat p) v) (repeat 32%N (4 * n))).
      rewrite (firstn_exact _ _ _ HAR), (skipn_exact _ _ _ HAR).
      replace (4 * S n)%nat with (4 * n + 4)%nat by lia.
      rewrite repeat_app, <- !app_assoc. reflexivity.
    + rewrite Ts, Te. split; [lia|]. split; [lia|]. exact Tok.
Qed.

Lemma tabs_witness :
  Keys.value
    (Nat.iter 2 Keys.indent
       {| Keys.value := js "ab"; Keys.selectionStart := 1;
          Keys.selectionEnd := 1 |})
  = js "a        b".
Proof.
  apply (tabs_insert_spaces 2
           {| Keys.value := js "ab"; Keys.selectionStart := 1;
              Keys.selectionEnd := 1 |}).
  - unfold Keys.selection_ok. simpl. unfold len. simpl. lia.
  - reflexivity.
Defined.

Lemma keydown_editor (e : Keys.KeyEvent) (g : Keys.Playground) :
  Keys.editor (snd (Keys.keydown e g))
  = if jsstring_eqb (Keys.key e) (js "Tab")
    then Keys.indent (Keys.editor g) else Keys.editor g.
Proof.
  unfold Keys.keydown.
  destruct (jsstring_eqb (Keys.key e) (js "Tab"));
    destruct ((Keys.ctrlKey e || Keys.metaKey e)
              && jsstring_eqb (Keys.key e) (js "Enter")); reflexivity.
Qed.

Lemma keydown_page (e : Keys.KeyEvent) (g : Keys.Playground) :
  Keys.page (snd (Keys.keydown e g))
  = if Keys.is_run_shortcut e
    then Page.runCode (Keys.inputs g) (Keys.page g) else Keys.page g.
Proof.
  unfold Keys.keydown, Keys.is_run_shortcut.
  destruct (jsstring_eqb (Keys.key e) (js "Tab")) eqn:Htab;
    destruct ((Keys.ctrlKey e || Keys.metaKey e)
              && jsstring_eqb (Keys.key e) (js "Enter")) eqn:Hrun;
    try reflexivity.
  apply andb_true_iff in Hrun. destruct Hrun as [_ Henter].
  apply jsstring_eqb_eq in Htab. apply jsstring_eqb_eq in Henter.
  rewrite Htab in Henter. discriminate.
Qed.

(** X5.  Over any sequence of key presses in the editor the selection
    stays within the text; the presses that are not Control-Enter or
    Command-Enter leave the page as it is, so that no key but the
    shortcut starts a run; and the shortcut calls [runCode] on the
    editor's text and the two selects, without touching the editor. *)
Theorem keys_reach_the_page_by_shortcut_only
    (es : list Keys.KeyEvent) (g : Keys.Playground) :
  (Keys.selection_ok (Keys.editor g) ->
   Keys.selection_ok (Keys.editor (Keys.keydowns es g)))
  /\ ((forall e, In e es -> Keys.is_run_shortcut e = false) ->
      Keys.page (Keys.keydowns es g) = Keys.page g)
  /\ (forall e,
        Keys.is_run_shortcut e = true ->
        Keys.keydown e g
        = (true,
           {| Keys.editor := Keys.editor g;
              Keys.timeoutSelect := Keys.timeoutSelect g;
              Keys.capSelect := Keys.capSelect g;
              Keys.page := Page.runCode (Keys.inputs g) (Keys.page g) |})).
Proof.
  split; [|split].
  - revert g. induction es as [|e es IH]; intros g Hok; simpl; [exact Hok|].
    apply IH. rewrite keydown_editor.
    destruct (jsstring_eqb (Keys.key e) (js "Tab")); [|exact Hok].
    now apply indent_effect.
  - revert g. induction es as [|e es IH]; intros g Hno; simpl; [reflexivity|].
    rewrite IH by (intros e' He'; apply Hno; now right).
    rewrite keydown_page, (Hno e) by now left. reflexivity.
  - intros e Hrun. unfold Keys.is_run_shortcut in Hrun.
    unfold Keys.keydown. rewrite Hrun.
    apply andb_true_iff in Hrun. destruct Hrun as [_ Henter].
    apply jsstring_eqb_eq in Henter. rewrite Henter. reflexivity.
Qed.

Lemma keys_witness :
  let enter :=
    {| Keys.key := js "Enter"; Keys.ctrlKey := false;
       Keys.metaKey := false |} in
  let g :=
    {| Keys.editor := {| Keys.value := js "print(1)";
                         Keys.selectionStart := 0;
                         Keys.selectionEnd := 0 |};
       Keys.timeoutSelect := Some 3000; Keys.capSelect := Some 16000;
       Keys.page := Page.initial |} in
  Keys.page (Keys.keydowns [Keys.tab_key; enter] g) = Keys.page g.
Proof.
  intros enter g.
  destruct (keys_reach_the_page_by_shortcut_only [Keys.tab_key; enter] g)
    as (_ & Hpage & _).
  apply Hpage. intros e [<-|[<-|[]]]; reflexivity.
Defined.

(** ** What the worker answers *)

(** X6.  The worker answers [init] with [ready] when the runtime is
    loaded (or loads) and with [fatal] and the error when it does not.
    To [run] it answers with a [result] whose output is never the empty
    string, or not at all; it does not answer exactly when the runtime is
    there and the code never returns. *)
Theorem worker_answers
    (Interp : Type)
    (py_exec : Interp -> list (jsstring * jsstring) -> jsstring
               -> Worker.Exec * Interp)
    (loadPyodide : jsstring + Interp)
    (pyodide : option Interp) :
  (forall py,
      Worker.initPyodide Interp loadPyodide pyodide = inr py ->
      Worker.onmessage Interp py_exec loadPyodide pyodide Init
      = Worker.Posts Ready (Some py))
  /\ (forall e,
        Worker.initPyodide Interp loadPyodide pyodide = inl e ->
        Worker.onmessage Interp py_exec loadPyodide pyodide Init
        = Worker.Posts (Fatal e) pyodide)
  /\ (forall code capBytes,
        (Worker.onmessage Interp py_exec loadPyodide pyodide
           (Run code capBytes) = Worker.Busy
         <-> exists py,
               Worker.initPyodide Interp loadPyodide pyodide = inr py
               /\ Worker.ending (fst (py_exec py Worker.fresh_globals code))
                  = Worker.NeverReturns)
        /\ (forall m pyodide',
              Worker.onmessage Interp py_exec loadPyodide pyodide
                (Run code capBytes) = Worker.Posts m pyodide' ->
              exists ok output, m = Result ok output /\ truthy output = true)).
Proof.
  split; [|split].
  - intros py H. unfold Worker.onmessage. now rewrite H.
  - intros e H. unfold Worker.onmessage. now rewrite H.
  - intros code capBytes. unfold Worker.onmessage, Worker.__run_user_code.
    destruct (Worker.initPyodide Interp loadPyodide pyodide) as [e|py].
    + split.
      * split; [discriminate|]. intros (py & H & _). discriminate.
      * intros m p H. inversion H. eauto.
    + destruct (py_exec py Worker.fresh_globals code) as [ex py'] eqn:Hex.
      destruct (Worker.ending ex) eqn:Hend; split.
      all: try (split; [discriminate|];
                intros (py0 & H0 & Hnr); inversion H0; subst py0;
                rewrite Hex in Hnr; simpl in Hnr; congruence).
      all: try (intros m p H; inversion H; do 2 eexists; split;
                [reflexivity|];
                match goal with
                | |- truthy (if truthy ?o then _ else _) = true =>
                    destruct o; reflexivity
                | _ => reflexivity
                end).
      * split; [|reflexivity]. intros _. exists py. split; [reflexivity|].
        rewrite Hex. exact Hend.
      * intros m p H. discriminate.
Qed.

Lemma worker_answers_witness :
  Demo.onmessage None Init = Worker.Posts Ready (Some 0).
Proof.
  apply (worker_answers Demo.Interp Demo.py_exec Demo.loadPyodide None).
  reflexivity.
Defined.



(** X8.  The [ok] of a result that the worker posts is never true: it is
    [!!res.ok] of a [Map] when the helper returned, and [false] in the
    worker's [catch].  The output is [(no output)] in the first case and
    [Worker error: ] followed by the error in the second, which is the
    case when the runtime did not load or the helper threw. *)
Theorem ok_is_never_true
    (Interp : Type)
    (py_exec : Interp -> list (jsstring * jsstring) -> jsstring
               -> Worker.Exec * Interp)
    (loadPyodide : jsstring + Interp)
    (pyodide pyodide' : option Interp)
    (code : jsstring) (capBytes : option Z) (ok : bool) (output : jsstring) :
  Worker.onmessage Interp py_exec loadPyodide pyodide (Run code capBytes)
  = Worker.Posts (Result ok output) pyodide' ->
  ok = false
  /\ ((output = js "(no output)"
       /\ exists py d py',
            Worker.initPyodide Interp loadPyodide pyodide = inr py
            /\ Worker.__run_user_code Interp py_exec py code
               = (Worker.Ret d, py'))
      \/ (exists e,
            output = js "Worker error: " ++ e
            /\ (Worker.initPyodide Interp loadPyodide pyodide = inl e
                \/ exists py py',
                     Worker.initPyodide Interp loadPyodide pyodide = inr py
                     /\ Worker.__run_user_code Interp py_exec py code
                        = (Worker.Throws e, py')))).
Proof.
  destruct (Worker.initPyodide Interp loadPyodide pyodide) as [e|py] eqn:Hinit.
  - unfold Worker.onmessage. rewrite Hinit. intros H.
    injection H as Hok Hout _. subst ok output.
    split; [reflexivity|]. right. exists e. split; [reflexivity|]. now left.
  - destruct (Worker.__run_user_code Interp py_exec py code) as [[d|e|] py1]
      eqn:Hrun.
    + rewrite (run_after_return _ _ _ _ _ _ capBytes _ _ Hinit Hrun).
      intros H. injection H as Hok Hout _. subst ok output.
      split; [reflexivity|]. left.
      split; [reflexivity|]. exists py, d, py1. split; [reflexivity|exact Hrun].
    + unfold Worker.onmessage. rewrite Hinit, Hrun. intros H.
      injection H as Hok Hout _. subst ok output.
      split; [reflexivity|]. right. exists e. split; [reflexivity|].
      right. exists py, py1. split; [reflexivity|exact Hrun].
    + unfold Worker.onmessage. rewrite Hinit, Hrun. discriminate.
Qed.

Lemma ok_is_never_true_witness :
  false = false
  /\ ((js "(no output)" = js "(no output)"
       /\ exists py d py',
            Worker.initPyodide Demo.Interp Demo.loadPyodide None = inr py
            /\ Worker.__run_user_code Demo.Interp Demo.py_exec py Demo.print_1
               = (Worker.Ret d, py'))
      \/ (exists e,
            js "(no output)" = js "Worker error: " ++ e
            /\ (Worker.initPyodide Demo.Interp Demo.loadPyodide None = inl e
                \/ exists py py',
                     Worker.initPyodide Demo.Interp Demo.loadPyodide None
                     = inr py
                     /\ Worker.__run_user_code Demo.Interp Demo.py_exec py
                          Demo.print_1
                        = (Worker.Throws e, py')))).
Proof.
  apply (ok_is_never_true Demo.Interp Demo.py_exec Demo.loadPyodide
           None (Some 0) Demo.print_1 (Some 16000) false (js "(no output)")).
  reflexivity.
Defined.

Lemma other_exception_witness :
  Demo.onmessage None (Run Demo.system_exit (Some 16000))
  = Worker.Posts (Result false (js "Worker error: PythonError: SystemExit"))
      (Some 0).
Proof.
  apply (other_exception_is_worker_error Demo.Interp Demo.py_exec
           Demo.loadPyodide None 0 0 Demo.system_exit (Some 16000)
           (Demo.silent (Worker.RaisedOther (js "PythonError: SystemExit"))));
    reflexivity.
Defined.

(** ** More on the capper *)

(** X10.  For a budget that is not negative, only the concatenation of the
    chunks counts: where stdout ends and stderr begins, or how else the
    output is cut into chunks, makes no difference to what is kept. *)
Theorem capJoin_ignores_chunk_borders (chunks : list jsstring) (capBytes : Z) :
  0 <= capBytes ->
  Worker.capJoin chunks capBytes
  = Worker.capJoin [List.concat chunks] capBytes.
Proof.
  intros Hcap.
  assert (E : List.concat [List.concat chunks] = List.concat chunks).
  { simpl. apply app_nil_r. }
  destruct (Z.le_gt_cases (len (List.concat chunks)) capBytes) as [Hle|Hgt].
  - rewrite !capJoin_fits; rewrite ?E; auto.
  - rewrite !capJoin_over; rewrite ?E; auto.
Qed.

Lemma capJoin_borders_witness :
  Worker.capJoin [js "ab"; js "cd"] 3 = Worker.capJoin [js "abcd"] 3.
Proof.
  apply (capJoin_ignores_chunk_borders [js "ab"; js "cd"] 3). lia.
Defined.

Lemma capJoin_negative_witness :
  Worker.capJoin [js "ab"; js "cd"] (-1) = Worker.truncation_marker.
Proof.
  apply (capJoin_negative_budget (js "ab") [js "cd"] (-1)). lia.
Defined.

(** ** What one event posts *)

Lemma restart_worker (t : Page.Page) :
  Page.worker (snd (Page.ensureWorker (Page.killWorker t)))
  = Some (Page.created t).
Proof.
  unfold Page.ensureWorker. rewrite killWorker_none.
  unfold Page.killWorker. destruct (Page.worker t); reflexivity.
Qed.

Lemma posts_of_restart (s t : Page.Page) :
  Page.posted t = Page.posted s ->
  Page.created t = Page.created s ->
  let s' := Page.finishRun (snd (Page.ensureWorker (Page.killWorker t))) in
  Page.posted s' = Page.posted s ++ [(Page.created s, Init)]
  /\ posts_of_step s s' [(Page.created s, Init)].
Proof.
  intros Hp Hc. cbv zeta.
  destruct (restart_effect t) as (_ & _ & _ & Rpo & _ & Rc).
  pose proof (restart_worker t) as Rw.
  set (r := snd (Page.ensureWorker (Page.killWorker t))) in *.
  destruct (finishRun_effect r) as (_ & _ & _ & Fpo & _).
  destruct (finishRun_workers r) as (Fw & _ & Fc).
  split.
  - now rewrite Fpo, Rpo, Hp, Hc.
  - apply posts_init.
    + now rewrite Fc, Rc, Hc.
    + now rewrite Fw, Rw, Hc.
Qed.

Lemma posts_of_ensureWorker (s : Page.Page) :
  let s' := snd (Page.ensureWorker s) in
  (Page.worker s <> None /\ s' = s)
  \/ (Page.worker s = None
      /\ Page.posted s' = Page.posted s ++ [(Page.created s, Init)]
      /\ Page.created s' = S (Page.created s)
      /\ Page.worker s' = Some (Page.created s)
      /\ fst (Page.ensureWorker s) = Page.created s).
Proof.
  cbv zeta. unfold Page.ensureWorker.
  destruct (Page.worker s) eqn:E; simpl.
  - left. split; [discriminate|reflexivity].
  - right. repeat split.
Qed.

Lemma posts_of_runCode (i : Page.Inputs) (s : Page.Page) :
  exists l,
    Page.posted (Page.runCode i s) = Page.posted s ++ l
    /\ posts_of_step s (Page.runCode i s) l.
Proof.
  destruct (truthy (trim (Page.codeEditor_value i))) eqn:Hcode.
  2:{ exists []. unfold Page.runCode. rewrite Hcode. simpl negb. cbv iota.
      split; [symmetry; apply app_nil_r|]. now apply posts_nothing. }
  destruct (runCode_effect i s Hcode)
    as (_ & _ & (capBytes & Rpo) & _ & Rw & Rc).
  pose proof (ensureWorker_current s) as Hcur.
  destruct (posts_of_ensureWorker s)
    as [[Hsome Hsame] | (Hnone & Epo & Ec & Ew & Ef)].
  - rewrite Hsame in Rpo, Rc, Hcur.
    eexists. split; [exact Rpo|].
    apply posts_run; [exact Rc | exact Hcur | exact Rw].
  - rewrite Epo in Rpo. rewrite Ec in Rc. rewrite Ef in Rpo, Rw.
    eexists. split; [rewrite Rpo, <- app_assoc; reflexivity|].
    now apply posts_init_run.
Qed.

Lemma posts_of_handle (e : Page.Event) (s : Page.Page) :
  exists l,
    Page.posted (Page.handle e s) = Page.posted s ++ l
    /\ posts_of_step s (Page.handle e s) l.
Proof.
  assert (Hnone : exists l, Page.posted s = Page.posted s ++ l
                            /\ posts_of_step s s l).
  { exists []. split; [symmetry; apply app_nil_r|]. now apply posts_nothing. }
  destruct e as [|i|i| |id|w msg|w message]; unfold Page.handle.
  - unfold Page.boot.
    match goal with
    | |- context [Page.ensureWorker ?t] =>
        destruct (posts_of_ensureWorker t)
          as [[_ ->] | (_ & Epo & Ec & Ew & _)]
    end.
    + exists []. split; [symmetry; apply app_nil_r|]. now apply posts_nothing.
    + exists [(Page.created s, Init)].
      split; [exact Epo | apply posts_init; [exact Ec | exact Ew]].
  - destruct (Page.runBtn_disabled s); [exact Hnone|apply posts_of_runCode].
  - apply posts_of_runCode.
  - destruct (Page.stopBtn_disabled s); [exact Hnone|].
    unfold Page.stopCode.
    destruct (Page.running s); simpl negb; cbv iota; [|exact Hnone].
    eexists. apply posts_of_restart; reflexivity.
  - destruct (Page.find_timer id (Page.pending s)); [|exact Hnone].
    unfold Page.timeout_callback.
    eexists. apply posts_of_restart; reflexivity.
  - destruct (Page.is_live w s); [|exact Hnone].
    exists []. split.
    + destruct msg as [|error|ok output]; simpl; rewrite app_nil_r;
        try reflexivity.
      apply (finishRun_effect s).
    + apply posts_nothing.
      destruct msg as [|error|ok output]; simpl; try reflexivity.
      apply (finishRun_workers s).
  - destruct (Page.is_live w s); [|exact Hnone].
    exists []. split.
    + unfold Page.worker_onerror. simpl. rewrite app_nil_r.
      apply (finishRun_effect s).
    + apply posts_nothing. unfold Page.worker_onerror. simpl.
      apply (finishRun_workers s).
Qed.

(** ** One worker at all times *)

Lemma handle_keeps_worker (e : Page.Event) (s : Page.Page) :
  Page.worker s <> None -> Page.worker (Page.handle e s) <> None.
Proof.
  intros H.
  assert (Hfin : forall t, Page.worker t <> None ->
                           Page.worker (Page.finishRun t) <> None).
  { intros t Ht. destruct (finishRun_workers t) as (-> & _). exact Ht. }
  assert (Hres : forall t,
             Page.worker
               (Page.finishRun (snd (Page.ensureWorker (Page.killWorker t))))
             <> None).
  { intros t. apply Hfin. rewrite restart_worker. discriminate. }
  assert (Hrun : forall i, Page.worker (Page.runCode i s) <> None).
  { intros i. destruct (truthy (trim (Page.codeEditor_value i))) eqn:Hcode.
    - destruct (runCode_effect i s Hcode) as (_ & _ & _ & _ & Rw & _).
      rewrite Rw. discriminate.
    - unfold Page.runCode. rewrite Hcode. exact H. }
  destruct e as [|i|i| |id|w msg|w message]; unfold Page.handle.
  - unfold Page.boot. rewrite ensureWorker_current. discriminate.
  - destruct (Page.runBtn_disabled s); [exact H|apply Hrun].
  - apply Hrun.
  - destruct (Page.stopBtn_disabled s); [exact H|]. unfold Page.stopCode.
    destruct (Page.running s); simpl negb; cbv iota; [apply Hres|exact H].
  - destruct (Page.find_timer id (Page.pending s)); [|exact H].
    unfold Page.timeout_callback. apply Hres.
  - destruct (Page.is_live w s); [|exact H].
    destruct msg as [|error|ok output]; simpl; try exact H.
    now apply Hfin.
  - destruct (Page.is_live w s); [|exact H].
    unfold Page.worker_onerror. simpl. now apply Hfin.
Qed.

Lemma run_events_keep_worker (evs : list Page.Event) :
  forall s, Page.worker s <> None ->
            Page.worker (Page.run_events evs s) <> None.
Proof.
  induction evs as [|e evs IH]; intros s H; simpl; [exact H|].
  apply IH. now apply handle_keeps_worker.
Qed.

(** X11.  From the [load] event on the page has exactly one worker that
    is constructed and not terminated, and the [worker] variable names
    it: a time-out, a stop or a crash never leaves the page without a
    worker or with two. *)
Theorem always_one_worker_after_load (before after : list Page.Event) :
  let s := Page.run_events (before ++ Page.Load :: after) Page.initial in
  exists w, Page.worker s = Some w /\ Page.live s = [w].
Proof.
  intros s.
  pose proof (one_worker_reachable (before ++ Page.Load :: after)) as [Hl _].
  fold s in Hl.
  assert (Hw : Page.worker s <> None).
  { unfold s. rewrite run_events_app. simpl.
    apply run_events_keep_worker. unfold Page.boot.
    rewrite ensureWorker_current. discriminate. }
  clearbody s. destruct (Page.worker s) as [w|]; [|congruence].
  exists w. now split.
Qed.

(** ** The watchdog *)

Lemma watchdog_after_finishRun (t s' : Page.Page) :
  Page.running s' = Page.running (Page.finishRun t) ->
  Page.runTimeout s' = Page.runTimeout (Page.finishRun t) ->
  watchdog_armed s'.
Proof.
  destruct (finishRun_effect t) as (Fr & Ft & _).
  intros Hr Ht. unfold watchdog_armed. rewrite Hr, Ht, Fr, Ft.
  split; [split; [discriminate|congruence]|discriminate].
Qed.

Lemma watchdog_same (s s' : Page.Page) :
  Page.running s' = Page.running s ->
  Page.runTimeout s' = Page.runTimeout s ->
  Page.pending s' = Page.pending s ->
  watchdog_armed s -> watchdog_armed s'.
Proof.
  intros Hr Ht Hp. unfold watchdog_armed. now rewrite Hr, Ht, Hp.
Qed.

Lemma watchdog_runCode (i : Page.Inputs) (s : Page.Page) :
  watchdog_armed s -> watchdog_armed (Page.runCode i s).
Proof.
  intros H. destruct (truthy (trim (Page.codeEditor_value i))) eqn:Hcode.
  - destruct (runCode_effect i s Hcode)
      as (Rr & (timeoutMs & Rt & Rp) & _).
    unfold watchdog_armed. rewrite Rr, Rt, Rp. split.
    + split; [discriminate|reflexivity].
    + intros id E. inversion E; subst id. rewrite map_app.
      apply in_or_app. right. now left.
  - unfold Page.runCode. rewrite Hcode. simpl negb. cbv iota.
    now apply (watchdog_same s).
Qed.

Lemma watchdog_handle (e : Page.Event) (s : Page.Page) :
  watchdog_armed s -> watchdog_armed (Page.handle e s).
Proof.
  intros H. destruct e as [|i|i| |id|w msg|w message]; unfold Page.handle.
  - unfold Page.boot.
    match goal with
    | |- watchdog_armed (snd (Page.ensureWorker ?t)) =>
        destruct (ensureWorker_effect t) as (Er & Et & Ep & _)
    end.
    now apply (watchdog_same s).
  - destruct (Page.runBtn_disabled s); [exact H|now apply watchdog_runCode].
  - now apply watchdog_runCode.
  - destruct (Page.stopBtn_disabled s); [exact H|]. unfold Page.stopCode.
    destruct (Page.running s); simpl negb; cbv iota; [|exact H].
    eapply watchdog_after_finishRun; reflexivity.
  - destruct (Page.find_timer id (Page.pending s)); [|exact H].
    unfold Page.timeout_callback.
    eapply watchdog_after_finishRun; reflexivity.
  - destruct (Page.is_live w s); [|exact H].
    destruct msg as [|error|ok output].
    + now apply (watchdog_same s).
    + now apply (watchdog_same s).
    + apply (watchdog_after_finishRun s); reflexivity.
  - destruct (Page.is_live w s); [|exact H].
    apply (watchdog_after_finishRun s); reflexivity.
Qed.

(** X12.  Whatever the events and their order: the flag [running] is true
    exactly when the variable [runTimeout] holds a handle, and the handle
    it holds is of a time-out that is pending. *)
Theorem running_iff_timeout_held (evs : list Page.Event) :
  let s := Page.run_events evs Page.initial in
  (Page.running s = true <-> Page.runTimeout s <> None)
  /\ (forall id, Page.runTimeout s = Some id ->
                 In id (map fst (Page.pending s))).
Proof.
  cbv zeta. change (watchdog_armed (Page.run_events evs Page.initial)).
  induction evs as [|e evs IH] using rev_ind.
  - unfold watchdog_armed. simpl.
    split; [split; [discriminate | intros H; now elim H] | discriminate].
  - rewrite run_events_app. simpl. now apply watchdog_handle.
Qed.

(** The property ties the flag to the variable, not every run to a
    time-out of its own: after two submissions from the keyboard and one
    result, the flag and the variable are cleared with the time-out of the
    first submission still pending and the one of the second cleared. *)
Lemma timeout_of_an_earlier_run_is_not_held :
  let s :=
    Page.run_events
      [Page.Load; Page.WorkerMessage 0 Ready;
       Page.CtrlEnter Example.print_1; Page.CtrlEnter Example.print_1;
       Page.WorkerMessage 0 Example.result_1]
      Page.initial in
  Page.running s = false
  /\ Page.runTimeout s = None
  /\ Page.pending s = [(1%nat, 3000)]
  /\ List.length (Page.runs_posted s) = 2%nat
  /\ List.length (Page.outcomes s) = 1%nat.
Proof. vm_compute. repeat split. Qed.

(** ** The order of the messages to a worker *)

Lemma messages_to_app (s s' : Page.Page) (l : list (nat * ToWorker)) (w : nat) :
  Page.posted s' = Page.posted s ++ l ->
  messages_to w s'
  = messages_to w s ++ map snd (filter (fun p => Nat.eqb (fst p) w) l).
Proof.
  intros H. unfold messages_to. now rewrite H, filter_app, map_app.
Qed.

Lemma init_first_step (s s' : Page.Page) (l : list (nat * ToWorker)) :
  one_worker s ->
  init_first s ->
  Page.posted s' = Page.posted s ++ l ->
  posts_of_step s s' l ->
  init_first s'.
Proof.
  intros [_ Hrank] Hinv Hpo Hstep w.
  rewrite (messages_to_app s s' l w Hpo).
  destruct (Hinv w) as [Hold Hnew].
  destruct Hstep as [Hc | Hc Hw | w0 code capBytes Hc Hw0 Hw | code capBytes Hc Hw0 Hw];
    rewrite Hc; simpl.
  - rewrite app_nil_r. now split.
  - destruct (Nat.eqb_spec (Page.created s) w) as [E|E]; simpl.
    + subst w. split; [|lia]. intros _. rewrite Hnew by lia.
      exists []. now split.
    + rewrite app_nil_r. split; intros Hlt; [apply Hold|apply Hnew]; lia.
  - specialize (Hrank w0 Hw0).
    destruct (Nat.eqb_spec w0 w) as [E|E]; simpl.
    + subst w. split; [|lia]. intros Hlt.
      destruct (Hold Hlt) as (runs & -> & Hruns).
      exists (runs ++ [Run code capBytes]). split; [reflexivity|].
      rewrite forallb_app, Hruns. reflexivity.
    + rewrite app_nil_r. now split.
  - destruct (Nat.eqb_spec (Page.created s) w) as [E|E]; simpl.
    + subst w. split; [|lia]. intros _. rewrite Hnew by lia.
      exists [Run code capBytes]. now split.
    + rewrite app_nil_r. split; intros Hlt; [apply Hold|apply Hnew]; lia.
Qed.

(** X13.  Whatever the events: every worker that the page has constructed
    was sent [init] as its first message and exactly once, everything
    after it being runs; and nothing is posted to a worker before it is
    constructed. *)
Theorem init_is_first_and_once (evs : list Page.Event) (w : nat) :
  let s := Page.run_events evs Page.initial in
  ((w < Page.created s)%nat ->
   exists runs, messages_to w s = Init :: runs /\ forallb is_run runs = true)
  /\ ((Page.created s <= w)%nat -> messages_to w s = []).
Proof.
  cbv zeta. revert w.
  change (init_first (Page.run_events evs Page.initial)).
  induction evs as [|e evs IH] using rev_ind.
  - intros w. simpl. split; [lia|reflexivity].
  - rewrite run_events_app. simpl.
    destruct (posts_of_handle e (Page.run_events evs Page.initial))
      as (l & Hpo & Hstep).
    apply (init_first_step _ _ l (one_worker_reachable evs) IH Hpo Hstep).
Qed.

Lemma init_first_witness :
  let s :=
    Page.run_events
      [Page.Load; Page.CtrlEnter Example.print_1; Page.TimerFires 1]
      Page.initial in
  exists runs, messages_to 0 s = Init :: runs /\ forallb is_run runs = true.
Proof.
  intros s.
  apply (init_is_first_and_once
           [Page.Load; Page.CtrlEnter Example.print_1; Page.TimerFires 1] 0).
  vm_compute. lia.
Defined.

(** X14.  Whatever the events, what one event posts goes to the worker
    that is current, constructed and not terminated once the event has
    been handled: nothing is ever posted to a terminated worker. *)
Theorem posts_go_to_the_live_worker (evs : list Page.Event) (e : Page.Event) :
  let s := Page.run_events evs Page.initial in
  let s' := Page.handle e s in
  exists l,
    Page.posted s' = Page.posted s ++ l
    /\ forall w m, In (w, m) l ->
                   Page.worker s' = Some w /\ Page.live s' = [w].
Proof.
  intros s s'.
  pose proof (one_worker_reachable evs) as Hone. fold s in Hone.
  pose proof (handle_workers e s Hone) as [Hlive _]. fold s' in Hlive.
  destruct (posts_of_handle e s) as (l & Hpo & Hstep). fold s' in Hpo, Hstep.
  clearbody s'. clearbody s.
  exists l. split; [exact Hpo|].
  intros w m Hin.
  assert (Hw : Page.worker s' = Some w).
  { destruct Hstep as [Hc | Hc Hw | w0 code capBytes Hc Hw0 Hw
                      | code capBytes Hc Hw0 Hw]; simpl in Hin.
    - contradiction.
    - destruct Hin as [E|[]]. inversion E; subst. exact Hw.
    - destruct Hin as [E|[]]. inversion E; subst. exact Hw.
    - destruct Hin as [E|[E|[]]]; inversion E; subst; exact Hw. }
  split; [exact Hw|]. now rewrite Hlive, Hw.
Qed.

(** ** When the watchdog fires *)

Lemma runCode_timer (i : Page.Inputs) (s : Page.Page) :
  truthy (trim (Page.codeEditor_value i)) = true ->
  Page.pending (Page.runCode i s)
  = Page.pending s
    ++ [(Page.next_timer s,
         match Page.timeoutSelect_value i with Some n => n | None => 3000 end)]
  /\ Page.next_timer (Page.runCode i s) = S (Page.next_timer s)
  /\ Page.runTimeout (Page.runCode i s) = Some (Page.next_timer s).
Proof.
  intros Hcode. unfold Page.runCode. rewrite Hcode. simpl negb. cbv iota.
  destruct (ensureWorker_effect s) as (_ & _ & Hp & Hn & _).
  destruct (Page.ensureWorker s) as [w s1]. simpl in *.
  rewrite Hp, Hn. repeat split.
Qed.

Lemma finishRun_timers (t : Page.Page) :
  Page.next_timer (Page.finishRun t) = Page.next_timer t
  /\ (forall x, In x (Page.pending (Page.finishRun t)) -> In x (Page.pending t))
  /\ Page.output (Page.finishRun t) = Page.output t
  /\ Page.pyStatus_class (Page.finishRun t) = Page.pyStatus_class t.
Proof.
  unfold Page.finishRun. simpl.
  destruct (Page.runTimeout t); simpl; repeat split; auto.
  intros x Hx. apply filter_In in Hx. tauto.
Qed.

Lemma restart_timers (t : Page.Page) :
  let r := snd (Page.ensureWorker (Page.killWorker t)) in
  Page.next_timer r = Page.next_timer t
  /\ Page.output r = Page.output t.
Proof.
  cbv zeta. unfold Page.ensureWorker. rewrite killWorker_none.
  unfold Page.killWorker. destruct (Page.worker t); simpl; split; reflexivity.
Qed.

Lemma timers_fresh_handle (e : Page.Event) (s : Page.Page) :
  timers_fresh s -> timers_fresh (Page.handle e s).
Proof.
  intros H.
  assert (Hsame : forall s', Page.pending s' = Page.pending s ->
                             Page.next_timer s' = Page.next_timer s ->
                             timers_fresh s').
  { intros s' Hp Hn. unfold timers_fresh. now rewrite Hp, Hn. }
  assert (Hsub : forall t,
             (forall x, In x (Page.pending t) -> In x (Page.pending s)) ->
             Page.next_timer t = Page.next_timer s ->
             timers_fresh
               (Page.finishRun (snd (Page.ensureWorker (Page.killWorker t))))).
  { intros t Hp Hn x Hx.
    destruct (restart_effect t) as (_ & _ & Rp & _).
    destruct (restart_timers t) as (Rn & _).
    destruct (finishRun_timers (snd (Page.ensureWorker (Page.killWorker t))))
      as (Fn & Fp & _).
    rewrite Fn, Rn, Hn. apply H, Hp. rewrite <- Rp. now apply Fp. }
  assert (Hfin : forall s',
             Page.pending s' = Page.pending (Page.finishRun s) ->
             Page.next_timer s' = Page.next_timer (Page.finishRun s) ->
             timers_fresh s').
  { intros s' Hp Hn x Hx. destruct (finishRun_timers s) as (Fn & Fp & _).
    rewrite Hn, Fn. apply H, Fp. now rewrite <- Hp. }
  assert (Hrun : forall i, timers_fresh (Page.runCode i s)).
  { intros i. destruct (truthy (trim (Page.codeEditor_value i))) eqn:Hcode.
    - destruct (runCode_timer i s Hcode) as (Rp & Rn & _).
      intros x Hx. rewrite Rp in Hx. rewrite Rn.
      apply in_app_or in Hx. destruct Hx as [Hx|[<-|[]]].
      + specialize (H x Hx). lia.
      + simpl. lia.
    - unfold Page.runCode. rewrite Hcode. simpl negb. cbv iota.
      now apply Hsame. }
  destruct e as [|i|i| |id|w msg|w message]; unfold Page.handle.
  - unfold Page.boot.
    match goal with
    | |- timers_fresh (snd (Page.ensureWorker ?t)) =>
        destruct (ensureWorker_effect t) as (_ & _ & Ep & En & _)
    end.
    now apply Hsame.
  - destruct (Page.runBtn_disabled s); [exact H|apply Hrun].
  - apply Hrun.
  - destruct (Page.stopBtn_disabled s); [exact H|]. unfold Page.stopCode.
    destruct (Page.running s); simpl negb; cbv iota; [|exact H].
    apply Hsub; [intros x Hx; exact Hx|reflexivity].
  - destruct (Page.find_timer id (Page.pending s)); [|exact H].
    unfold Page.timeout_callback. apply Hsub; [|reflexivity].
    intros x Hx. unfold Page.expire in Hx. simpl in Hx.
    apply filter_In in Hx. tauto.
  - destruct (Page.is_live w s); [|exact H].
    destruct msg as [|error|ok output].
    + now apply Hsame.
    + now apply Hsame.
    + now apply Hfin.
  - destruct (Page.is_live w s); [|exact H]. now apply Hfin.
Qed.

Lemma timers_fresh_reachable (evs : list Page.Event) :
  timers_fresh (Page.run_events evs Page.initial).
Proof.
  induction evs as [|e evs IH] using rev_ind.
  - intros x [].
  - rewrite run_events_app. simpl. now apply timers_fresh_handle.
Qed.

Lemma find_timer_new (l : list (nat * Z)) (id : nat) (timeoutMs : Z) :
  (forall x, In x l -> (fst x < id)%nat) ->
  Page.find_timer id (l ++ [(id, timeoutMs)]) = Some timeoutMs.
Proof.
  intros H. unfold Page.find_timer.
  induction l as [|x l IH]; simpl.
  - now rewrite Nat.eqb_refl.
  - destruct (Nat.eqb_spec (fst x) id) as [E|E].
    + specialize (H x (or_introl eq_refl)). lia.
    + apply IH. intros y Hy. apply H. now right.
Qed.

Lemma timeout_callback_shows (timeoutMs : Z) (t : Page.Page) :
  let s' := Page.timeout_callback timeoutMs t in
  Page.output s'
  = [9201%N; 65039%N] ++ js " Timed out after " ++ String_of_Z timeoutMs
    ++ js "ms. (Try a longer timeout or optimize the code.)"
  /\ Page.outcomes s' = Page.outcomes t ++ [Page.TimedOut]
  /\ (forall x, In x (Page.pending s') ->
                In x (Page.pending t)
                /\ Page.runTimeout t <> Some (fst x)).
Proof.
  cbv zeta. unfold Page.timeout_callback.
  match goal with
  | |- context [Page.ensureWorker (Page.killWorker ?u)] => set (t1 := u)
  end.
  destruct (restart_effect t1) as (_ & Rt & Rp & _ & Ro & _).
  destruct (restart_timers t1) as (_ & Rout).
  set (r := snd (Page.ensureWorker (Page.killWorker t1))) in *.
  destruct (finishRun_effect r) as (_ & _ & Fp & _ & Fo).
  destruct (finishRun_timers r) as (_ & _ & Fout & _).
  split; [rewrite Fout, Rout; reflexivity|].
  split; [rewrite Fo, Ro; reflexivity|].
  intros x Hx. rewrite Fp, Rt, Rp in Hx.
  change (Page.runTimeout t1) with (Page.runTimeout t) in Hx.
  change (Page.pending t1) with (Page.pending t) in Hx.
  destruct (Page.runTimeout t) as [id|]; [|split; [exact Hx|discriminate]].
  apply filter_In in Hx. destruct Hx as [Hin Hne]. split; [exact Hin|].
  intros E. inversion E; subst id. rewrite Nat.eqb_refl in Hne. discriminate.
Qed.

(** X15.  When the time-out of a run fires before anything else happens,
    the page shows the notice with the time-out that was selected for
    that run (3000 when the select was empty), written as [String] writes
    the Number (with an exponent from 21 digits on), reports a time-out and
    nothing else, replaces the worker by a new one, clears the running
    flag and the handle, and leaves no time-out of that run pending. *)
Theorem watchdog_fires_on_its_run (evs : list Page.Event) (i : Page.Inputs) :
  truthy (trim (Page.codeEditor_value i)) = true ->
  let s := Page.run_events evs Page.initial in
  let s1 := Page.runCode i s in
  let id := Page.next_timer s in
  let timeoutMs :=
    match Page.timeoutSelect_value i with Some n => n | None => 3000 end in
  let s2 := Page.handle (Page.TimerFires id) s1 in
  Page.runTimeout s1 = Some id
  /\ Page.output s2
     = [9201%N; 65039%N] ++ js " Timed out after " ++ String_of_Z timeoutMs
       ++ js "ms. (Try a longer timeout or optimize the code.)"
  /\ Page.outcomes s2 = Page.outcomes s ++ [Page.TimedOut]
  /\ Page.running s2 = false
  /\ Page.runTimeout s2 = None
  /\ Page.worker s2 = Some (Page.created s1)
  /\ Page.live s2 = [Page.created s1]
  /\ (forall ms, ~ In (id, ms) (Page.pending s2)).
Proof.
  intros Hcode s s1 id timeoutMs s2.
  pose proof (timers_fresh_reachable evs) as Hfresh. fold s in Hfresh.
  pose proof (one_worker_reachable evs) as Hone. fold s in Hone.
  destruct (runCode_timer i s Hcode) as (Rp & _ & Rt).
  destruct (runCode_effect i s Hcode) as (_ & _ & _ & Ro & _).
  pose proof (runCode_workers i s Hone) as Hone1.
  fold s1 id timeoutMs in Rp, Rt, Ro, Hone1.
  assert (Hfind : Page.find_timer id (Page.pending s1) = Some timeoutMs).
  { rewrite Rp. apply find_timer_new. exact Hfresh. }
  assert (Hs2 : s2 = Page.timeout_callback timeoutMs (Page.expire id s1)).
  { unfold s2, Page.handle. now rewrite Hfind. }
  clearbody s2. subst s2. clearbody s1 s.
  set (t := Page.expire id s1) in *.
  assert (Ht : Page.runTimeout t = Some id) by exact Rt.
  assert (Hont : one_worker t) by now apply (one_worker_same s1).
  destruct (timeout_callback_shows timeoutMs t) as (Hout & Houtc & Hpend).
  pose proof (timeout_callback_replaces timeoutMs t Hont) as Hw.
  pose proof (timeout_callback_workers timeoutMs t Hont) as [Hlive _].
  assert (Hrun : Page.running (Page.timeout_callback timeoutMs t) = false).
  { exact (proj1 (restart_loading _)). }
  assert (Hrt : Page.runTimeout (Page.timeout_callback timeoutMs t) = None).
  { unfold Page.timeout_callback. apply finishRun_effect. }
  set (c := Page.timeout_callback timeoutMs t) in *. clearbody c.
  split; [exact Rt|]. split; [exact Hout|].
  split; [rewrite Houtc, <- Ro; reflexivity|].
  split; [exact Hrun|]. split; [exact Hrt|].
  split; [exact Hw|].
  split; [rewrite Hlive, Hw; reflexivity|].
  intros ms Hin. destruct (Hpend _ Hin) as [_ Hne]. apply Hne. exact Ht.
Qed.

Lemma watchdog_fires_witness :
  let s1 := Page.runCode Example.print_1 Example.ready_page in
  let s2 := Page.handle (Page.TimerFires (Page.next_timer Example.ready_page))
              s1 in
  Page.running s2 = false.
Proof.
  intros s1 s2.
  destruct (watchdog_fires_on_its_run [Page.Load; Page.WorkerMessage 0 Ready]
              Example.print_1 eq_refl)
    as (_ & _ & _ & Hrun & _).
  exact Hrun.
Defined.

(** ** The mobile menu *)

Lemma contains_remove (token : jsstring) (classList : list jsstring) :
  Nav.contains token (Nav.remove token classList) = false.
Proof.
  unfold Nav.contains, Nav.remove.
  induction classList as [|c l IH]; simpl; [reflexivity|].
  destruct (jsstring_eqb c token) eqn:E; simpl; [exact IH|].
  rewrite IH, orb_false_r.
  destruct (jsstring_eqb token c) eqn:E'; [|reflexivity].
  apply jsstring_eqb_eq in E'. subst c. rewrite jsstring_eqb_refl in E.
  discriminate.
Qed.

Lemma contains_appended (token : jsstring) (classList : list jsstring) :
  Nav.contains token (classList ++ [token]) = true.
Proof.
  unfold Nav.contains. rewrite existsb_app. simpl.
  rewrite jsstring_eqb_refl. now rewrite orb_true_r.
Qed.

Lemma click_announces (prefersReduced : bool) (c : Nav.Click) (m m' : Nav.Menu) :
  Nav.navToggle m <> None ->
  Nav.click prefersReduced c m = Some m' ->
  Nav.navToggle m'
  = Some (Some (Nav.String_of_bool (Nav.is_open m')))
  /\ (c = Nav.OnLink -> Nav.is_open m' = false).
Proof.
  intros Htoggle. destruct c; simpl.
  - unfold Nav.toggle_click.
    destruct (Nav.navToggle m) as [aria|]; [|congruence].
    destruct (Nav.navLinks m) as [classList|]; [|discriminate].
    unfold Nav.toggle.
    destruct (Nav.contains (js "open") classList) eqn:E;
      intros H; inversion H; subst m'; unfold Nav.is_open; simpl.
    + rewrite contains_remove. split; [reflexivity|discriminate].
    + rewrite contains_appended. split; [reflexivity|discriminate].
  - intros H. inversion H; subst m'. unfold Nav.is_open. simpl.
    destruct (Nav.navToggle m) as [aria|]; [|congruence].
    destruct (Nav.navLinks m) as [classList|]; simpl.
    + rewrite contains_remove. split; reflexivity.
    + split; reflexivity.
Qed.

Lemma click_keeps_toggle (prefersReduced : bool) (c : Nav.Click)
    (m m' : Nav.Menu) :
  Nav.navToggle m <> None ->
  Nav.click prefersReduced c m = Some m' ->
  Nav.navToggle m' <> None.
Proof.
  intros Ht Hc. destruct (click_announces prefersReduced c m m' Ht Hc) as [-> _].
  discriminate.
Qed.

(** X16.  After any clicks on the menu button and on links of the page,
    the button's [aria-expanded] says whether the list of links has the
    class [open], and a click on a link always leaves the menu closed. *)
Theorem menu_state_is_announced
    (prefersReduced : bool) (cs : list Nav.Click) (c : Nav.Click)
    (m m' : Nav.Menu) :
  Nav.navToggle m <> None ->
  Nav.clicks prefersReduced (cs ++ [c]) m = Some m' ->
  Nav.navToggle m' = Some (Some (Nav.String_of_bool (Nav.is_open m')))
  /\ (c = Nav.OnLink -> Nav.is_open m' = false).
Proof.
  revert m. induction cs as [|c0 cs IH]; intros m Ht; simpl.
  - destruct (Nav.click prefersReduced c m) as [m1|] eqn:E; [|discriminate].
    intros H. inversion H; subst m1.
    now apply (click_announces prefersReduced c m).
  - destruct (Nav.click prefersReduced c0 m) as [m1|] eqn:E; [|discriminate].
    apply IH. now apply (click_keeps_toggle prefersReduced c0 m).
Qed.

Lemma menu_witness :
  let m := {| Nav.navToggle := Some (Some (js "false"));
              Nav.navLinks := Some [js "nav-links"] |} in
  let m' := {| Nav.navToggle := Some (Some (js "true"));
               Nav.navLinks := Some [js "nav-links"; js "open"] |} in
  Nav.navToggle m'
  = Some (Some (Nav.String_of_bool (Nav.is_open m'))).
Proof.
  intros m m'.
  apply (menu_state_is_announced false [Nav.OnToggle; Nav.OnLink] Nav.OnToggle
           m m').
  - discriminate.
  - reflexivity.
Defined.

(** ** Witnesses for two properties proved above *)

Lemma orderly_run_witness :
  let evs :=
    [Page.Load; Page.WorkerMessage 0 Ready;
     Page.ClickRun Example.print_1; Page.WorkerMessage 0 Example.result_1;
     Page.CtrlEnter Example.print_1; Page.TimerFires 2] in
  Page.orderly evs Page.initial
  /\ (let s := Page.run_events evs Page.initial in
      (List.length (Page.outcomes s) + (if Page.running s then 1 else 0)
       = List.length (Page.runs_posted s))%nat
      /\ (Page.running s = true ->
          exists id timeoutMs,
            Page.runTimeout s = Some id /\ Page.pending s = [(id, timeoutMs)])
      /\ (Page.running s = false -> Page.pending s = [])).
Proof.
  intros evs.
  assert (H : Page.orderly evs Page.initial).
  { vm_compute. repeat split; auto. }
  split; [exact H | exact (one_outcome_per_orderly_run evs H)].
Defined.

Lemma runCode_blank_witness :
  Page.posted (Page.runCode Example.spaces Page.initial)
  = Page.posted Page.initial.
Proof.
  apply (runCode_blank Example.spaces Page.initial). reflexivity.
Defined.

(** ** A failed load, and a run from submission to display *)

(** X17.  On a [fatal] message the page shows the error (or
    [Unknown error] when it is empty) with the status set to error, and
    disables both buttons: clicks on Run and on Stop then change nothing. *)
Theorem fatal_disables_the_buttons
    (w : nat) (error : jsstring) (s : Page.Page) (es : list Page.Event) :
  (forall e, In e es ->
             match e with
             | Page.ClickRun _ | Page.ClickStop => True
             | _ => False
             end) ->
  let s' := Page.worker_onmessage w (Fatal error) s in
  Page.output s' = (if truthy error then error else js "Unknown error")
  /\ Page.pyStatus_class s' = Page.status_error
  /\ Page.pyStatus_text s' = js "Python failed to load"
  /\ Page.run_events es s' = s'.
Proof.
  intros Hes s'.
  assert (Hrun : Page.runBtn_disabled s' = true) by reflexivity.
  assert (Hstop : Page.stopBtn_disabled s' = true) by reflexivity.
  repeat split. clearbody s'.
  induction es as [|e es IH]; [reflexivity|].
  assert (He : Page.handle e s' = s').
  { specialize (Hes e (or_introl eq_refl)).
    destruct e; try contradiction; simpl.
    - now rewrite Hrun.
    - now rewrite Hstop. }
  simpl. rewrite He. apply IH. intros e' He'. apply Hes. now right.
Qed.

Lemma fatal_witness :
  let s' := Page.worker_onmessage 0 (Fatal []) Page.initial in
  Page.run_events [Page.ClickRun Example.print_1; Page.ClickStop] s' = s'.
Proof.
  intros s'.
  apply (fatal_disables_the_buttons 0 [] Page.initial
           [Page.ClickRun Example.print_1; Page.ClickStop]).
  intros e [<-|[<-|[]]]; exact I.
Defined.

Lemma finishRun_buttons (t : Page.Page) :
  Page.runBtn_disabled (Page.finishRun t) = false
  /\ Page.stopBtn_disabled (Page.finishRun t) = true.
Proof.
  unfold Page.finishRun. simpl. destruct (Page.runTimeout t); split;
    reflexivity.
Qed.

Lemma run_answer_nonempty
    (Interp : Type)
    (py_exec : Interp -> list (jsstring * jsstring) -> jsstring
               -> Worker.Exec * Interp)
    (loadPyodide : jsstring + Interp)
    (pyodide pyodide' : option Interp)
    (code : jsstring) (capBytes : option Z) (m : FromWorker) :
  Worker.onmessage Interp py_exec loadPyodide pyodide (Run code capBytes)
  = Worker.Posts m pyodide' ->
  exists ok output, m = Result ok output /\ truthy output = true.
Proof.
  unfold Worker.onmessage.
  destruct (Worker.initPyodide Interp loadPyodide pyodide) as [e|py].
  - intros H. inversion H. eauto.
  - destruct (Worker.__run_user_code Interp py_exec py code)
      as [[res|e|] py1]; intros H; inversion H; do 2 eexists;
      (split; [reflexivity|]); [|reflexivity].
    destruct (Worker.capJoin _ _); reflexivity.
Qed.

(** X18.  A run from submission to display: the page posts the run with
    the editor's text and the selected budget to its current worker; when
    that worker answers, the page shows exactly the output of the answer,
    which is never empty, whatever its [ok]; the running flag and the
    time-out of the run are cleared, the Run button is enabled again and
    the Stop button disabled, and the status is left as it was. *)
Theorem run_from_submission_to_display
    (Interp : Type)
    (py_exec : Interp -> list (jsstring * jsstring) -> jsstring
               -> Worker.Exec * Interp)
    (loadPyodide : jsstring + Interp)
    (pyodide pyodide' : option Interp)
    (evs : list Page.Event) (i : Page.Inputs) (m : FromWorker) :
  truthy (trim (Page.codeEditor_value i)) = true ->
  let s := Page.run_events evs Page.initial in
  let s1 := Page.runCode i s in
  let w := fst (Page.ensureWorker s) in
  let request :=
    Run (Page.codeEditor_value i)
        (Some (match Page.capSelect_value i with
               | Some n => n
               | None => 16000
               end)) in
  Worker.onmessage Interp py_exec loadPyodide pyodide request
  = Worker.Posts m pyodide' ->
  let s2 := Page.handle (Page.WorkerMessage w m) s1 in
  Page.posted s1 = Page.posted (snd (Page.ensureWorker s)) ++ [(w, request)]
  /\ exists ok output,
       m = Result ok output
       /\ output <> []
       /\ Page.output s2 = output
       /\ Page.outcomes s2 = Page.outcomes s ++ [Page.GotResult w output]
       /\ Page.running s2 = false
       /\ Page.runTimeout s2 = None
       /\ (forall ms, ~ In (Page.next_timer s, ms) (Page.pending s2))
       /\ Page.runBtn_disabled s2 = false
       /\ Page.stopBtn_disabled s2 = true
       /\ Page.pyStatus_class s2 = Page.pyStatus_class s1.
Proof.
  intros Hcode s s1 w request Hanswer s2.
  pose proof (one_worker_reachable evs) as Hone. fold s in Hone.
  pose proof (runCode_workers i s Hone) as Hone1. fold s1 in Hone1.
  destruct (runCode_effect i s Hcode) as (_ & _ & _ & Ro & Rw & _).
  destruct (runCode_timer i s Hcode) as (_ & _ & Rt).
  fold s1 w in Ro, Rw, Rt.
  assert (Hposted : Page.posted s1
                    = Page.posted (snd (Page.ensureWorker s)) ++ [(w, request)]).
  { unfold s1, Page.runCode. rewrite Hcode. simpl negb. cbv iota.
    unfold w, request. destruct (Page.ensureWorker s) as [w0 s0].
    reflexivity. }
  split; [exact Hposted|].
  destruct (run_answer_nonempty _ _ _ _ _ _ _ _ Hanswer)
    as (ok & output & -> & Htruthy).
  exists ok, output. split; [reflexivity|].
  split; [intros E; subst output; discriminate|].
  assert (Hlive : Page.is_live w s1 = true).
  { destruct Hone1 as [Hl _]. unfold Page.is_live. rewrite Hl, Rw. simpl.
    now rewrite Nat.eqb_refl. }
  assert (Hs2 : s2 = Page.worker_onmessage w (Result ok output) s1).
  { unfold s2, Page.handle. now rewrite Hlive. }
  clearbody s2. subst s2. clearbody s1 s.
  destruct (finishRun_effect s1) as (Fr & Ft & Fp & _ & Fo).
  destruct (finishRun_buttons s1) as (Fb1 & Fb2).
  destruct (finishRun_timers s1) as (_ & _ & _ & Fc).
  split; [reflexivity|].
  split; [simpl; rewrite Fo, Ro; reflexivity|].
  split; [exact Fr|]. split; [exact Ft|].
  split.
  { intros ms Hin.
    change (In (Page.next_timer s, ms) (Page.pending (Page.finishRun s1)))
      in Hin.
    rewrite Fp, Rt in Hin. apply filter_In in Hin. destruct Hin as [_ Hne].
    simpl in Hne. rewrite Nat.eqb_refl in Hne. discriminate. }
  split; [exact Fb1|]. split; [exact Fb2|]. exact Fc.
Qed.

Lemma run_display_witness :
  let s1 := Page.runCode Example.print_1 Example.ready_page in
  let s2 := Page.handle (Page.WorkerMessage 0 Example.result_1) s1 in
  exists ok output,
    Example.result_1 = Result ok output /\ Page.output s2 = output.
Proof.
  intros s1 s2.
  destruct (run_from_submission_to_display Demo.Interp Demo.py_exec
              Demo.loadPyodide (Some 0) (Some 0)
              [Page.Load; Page.WorkerMessage 0 Ready] Example.print_1
              Example.result_1 eq_refl eq_refl)
    as (_ & ok & output & Hm & _ & Hout & _).
  exists ok, output. split; [exact Hm|exact Hout].
Defined.
